(** * 6502ctl: the bus controller and its step debugger

    A shallow embedding of [6502ctl.ino], the ATmega 2560 sketch that clocks a
    W65C02S, serves its memory accesses from a RAM array and a ROM image, and
    overlays a step / continue / break / reset debugger on the serial line.

    Integers are [Z] with the width of the C type written out ([u8], [u16]:
    [int] is 16 bits wide on the AVR).  Arrays are lists read with stdpp's
    lookup, so that an index outside the array shows as [None].  The sketch's
    globals and the registers it writes form the record [state]; what a cycle
    samples from the 6502 is a [bus_sample].  The serial receive path has
    its two stages: the receiver of the USART, whose flag RXC0 the loop
    tests, and the queue of [Serial], which the receive interrupt fills and
    the debugger reads. *)

From Stdlib Require Import ZArith Lia Ascii String List Bool.
From stdpp Require Import base list strings.

Local Open Scope Z_scope.

(** ** Machine integers *)

Definition u8 (x : Z) : Z := x mod 256.
Definition u16 (x : Z) : Z := x mod 65536.

(** ** 6502pins.h

    The header that maps the 6502 pins to ATmega port bits is not part of the
    sketch; [P6502_OCTL_PIN(x)] and [P6502_ICTL_PIN(x)] are taken as the
    8-bit masks below. *)

Record pins := mkPins {
  OCTL_RWB : Z;
  OCTL_SYNC : Z;
  OCTL_MLB : Z;
  OCTL_VPB : Z;
  ICTL_RDY : Z;
  ICTL_IRQB : Z;
  ICTL_NMIB : Z;
  ICTL_SOB : Z;
  ICTL_BE : Z;
  ICTL_RESB : Z;
  ICTL_PHI2 : Z
}.

(** A mask is usable when it selects at least one of the eight port bits. *)
Definition mask8 (m : Z) : Prop := 0 < m < 256.

(** [reset] needs PHI2 and RESB to be different bits of the ICTL port. *)
Definition wf_ictl (P : pins) : Prop :=
  mask8 (ICTL_PHI2 P) /\ mask8 (ICTL_RESB P) /\
  Z.land (ICTL_PHI2 P) (ICTL_RESB P) = 0.

(** [v & P6502_xxx_PIN(x)] used as a C truth value: the pin reads high. *)
Definition pin_high (v mask : Z) : bool := negb (Z.land v mask =? 0).

(** ** State *)

Record state := mkState {
  ram : list Z;            (* static uint8_t ram[RAMSIZE] *)
  debug_step : bool;       (* static bool debug_step *)
  ictl_port : Z;           (* P6502_ICTL(PORT) *)
  ictl_ddr : Z;            (* P6502_ICTL(DDR) *)
  ictl_trace : list Z;     (* the values stored to P6502_ICTL(PORT), in order *)
  dbus_ddr : Z;            (* P6502_DBUS(DDR) *)
  dbus_port : Z;           (* P6502_DBUS(PORT) *)
  irq_enabled : bool;      (* the global interrupt flag: sei() / cli() *)
  uart : list ascii;       (* received by the USART, not yet taken from it:
                              RXC0 is set while there are any *)
  rx : list ascii;         (* bytes waiting in Serial's receive queue *)
  tx : list string         (* the lines handed to Serial.println, in order *)
}.

Definition set_ram (r : list Z) (s : state) : state :=
  mkState r (debug_step s) (ictl_port s) (ictl_ddr s) (ictl_trace s)
          (dbus_ddr s) (dbus_port s) (irq_enabled s) (uart s) (rx s) (tx s).
Definition set_debug_step (b : bool) (s : state) : state :=
  mkState (ram s) b (ictl_port s) (ictl_ddr s) (ictl_trace s)
          (dbus_ddr s) (dbus_port s) (irq_enabled s) (uart s) (rx s) (tx s).
Definition set_ictl_port (p : Z) (s : state) : state :=
  mkState (ram s) (debug_step s) p (ictl_ddr s) (ictl_trace s ++ [p])
          (dbus_ddr s) (dbus_port s) (irq_enabled s) (uart s) (rx s) (tx s).
Definition set_ictl_ddr (d : Z) (s : state) : state :=
  mkState (ram s) (debug_step s) (ictl_port s) d (ictl_trace s)
          (dbus_ddr s) (dbus_port s) (irq_enabled s) (uart s) (rx s) (tx s).
Definition set_dbus (ddr port : Z) (s : state) : state :=
  mkState (ram s) (debug_step s) (ictl_port s) (ictl_ddr s) (ictl_trace s)
        ddr port (irq_enabled s) (uart s) (rx s) (tx s).
Definition set_irq (b : bool) (s : state) : state :=
  mkState (ram s) (debug_step s) (ictl_port s) (ictl_ddr s) (ictl_trace s)
          (dbus_ddr s) (dbus_port s) b (uart s) (rx s) (tx s).
Definition set_uart (q : list ascii) (s : state) : state :=
  mkState (ram s) (debug_step s) (ictl_port s) (ictl_ddr s) (ictl_trace s)
          (dbus_ddr s) (dbus_port s) (irq_enabled s) q (rx s) (tx s).
Definition set_rx (q : list ascii) (s : state) : state :=
  mkState (ram s) (debug_step s) (ictl_port s) (ictl_ddr s) (ictl_trace s)
          (dbus_ddr s) (dbus_port s) (irq_enabled s) (uart s) q (tx s).
Definition Serial_println (line : string) (s : state) : state :=
  mkState (ram s) (debug_step s) (ictl_port s) (ictl_ddr s) (ictl_trace s)
          (dbus_ddr s) (dbus_port s) (irq_enabled s) (uart s) (rx s)
          (tx s ++ [line]).

(** What one bus cycle reads from the pins of the 6502. *)
Record bus_sample := mkBus {
  octl_pin : Z;            (* P6502_OCTL(PIN) *)
  ablo_pin : Z;            (* P6502_ABLO(PIN) *)
  abhi_pin : Z;            (* P6502_ABHI(PIN) *)
  dbus_pin : Z             (* P6502_DBUS(PIN) *)
}.

(** ** 6502 address bus, data bus and control ports *)

Definition read_abus (b : bus_sample) : Z :=
  u16 (Z.lor (ablo_pin b) (Z.shiftl (abhi_pin b) 8)).

Definition setup_dbus (s : state) : state := set_dbus 0 0 s.
Definition read_dbus (b : bus_sample) (s : state) : Z * state :=
  (dbus_pin b, set_dbus 0 0 s).
Definition write_dbus (v : Z) (s : state) : state := set_dbus 255 v s.
Definition tristate_dbus (s : state) : state := set_dbus 0 (dbus_port s) s.

Definition setup_ictl (s : state) : state := set_ictl_ddr 255 s.
Definition write_ictl (m v : Z) (s : state) : state :=
  set_ictl_port
    (u8 (Z.lor (Z.land (ictl_port s) (Z.lnot m)) (Z.land v m))) s.
Definition read_octl (b : bus_sample) : Z := octl_pin b.

(** ** Clock and reset *)

Section Clock.
Variable P : pins.

Definition clock_rise (s : state) : state := write_ictl (ICTL_PHI2 P) 255 s.
Definition clock_fall (s : state) : state := write_ictl (ICTL_PHI2 P) 0 s.

(** [for (size_t i = 0; n > i; i++) { clock_rise(); clock_fall(); }] *)
Fixpoint clock_cycle (n : nat) (s : state) : state :=
  match n with
  | O => s
  | S k => clock_cycle k (clock_fall (clock_rise s))
  end.

Definition RESB_0_NCLK : nat := 2.
Definition RESB_1_NCLK : nat := 7.

Definition reset (s : state) : state :=
  let s := write_ictl (ICTL_RESB P) 0 s in
  let s := clock_cycle RESB_0_NCLK s in
  let s := write_ictl (ICTL_RESB P) 255 s in
  clock_cycle RESB_1_NCLK s.
End Clock.

(** ** Data read / write *)

Definition RAMSIZE : Z := 4 * 1024.
Definition RAMMASK : Z := RAMSIZE - 1.
Definition ROMSIZE : Z := 24 * 1024.
Definition ROMMASK : Z := ROMSIZE - 1.
Definition RAMADDR (a : Z) : bool := a <? 0x1000.
Definition ROMADDR (a : Z) : bool := a >=? 0xA000.

(** The index [addr - 0xA000]: unsigned 16-bit arithmetic. *)
Definition rom_index (addr : Z) : Z := u16 (addr - 0xA000).

Section Memory.
(** [static const uint8_t rom[ROMSIZE]]: the image comes from 6502rom.h,
    which the sketch includes; the declaration fixes its size. *)
Variable rom : list Z.

Definition pgm_read_byte (i : Z) : option Z := rom !! Z.to_nat i.

Definition read_data (s : state) (addr : Z) : option Z :=
  if RAMADDR addr then ram s !! Z.to_nat (Z.land addr RAMMASK)
  else pgm_read_byte (rom_index addr).

Definition write_data (addr data : Z) (s : state) : state :=
  if RAMADDR addr
  then set_ram (<[Z.to_nat (Z.land addr RAMMASK) := data]> (ram s)) s
  else s.
End Memory.

(** ** snprintf

    The conversions of the one format string the sketch uses,
    ["%c%c%c%c %04x %02x%s%s"].  [%x] takes an [unsigned int], 16 bits wide
    here, which has at most four hexadecimal digits. *)

Definition hex_digit (n : Z) : ascii :=
  match String.get (Z.to_nat n) "0123456789abcdef" with
  | Some c => c
  | None => "0"%char
  end.

Fixpoint hex_digits (fuel : nat) (n : Z) : string :=
  match fuel with
  | O => EmptyString
  | S f =>
      if n <? 16 then String (hex_digit n) EmptyString
      else hex_digits f (n / 16) +:+ String (hex_digit (n mod 16)) EmptyString
  end.

Fixpoint zero_pad (k : nat) (s : string) : string :=
  match k with
  | O => s
  | S k' => String "0"%char (zero_pad k' s)
  end.

(** [%0<width>x] *)
Definition fmt_0x (width : nat) (n : Z) : string :=
  let d := hex_digits 4 (u16 n) in
  zero_pad (width - String.length d) d.

(** [snprintf(buf, size, ...)] keeps at most [size - 1] characters. *)
Definition snprintf (size : nat) (s : string) : string :=
  String.substring 0 (size - 1) s.

(** Reading a hexadecimal numeral back, to state what [fmt_0x] prints. *)
Definition hex_digit_value (c : ascii) : option Z :=
  let n := Z.of_nat (nat_of_ascii c) in
  if (48 <=? n) && (n <=? 57) then Some (n - 48)
  else if (97 <=? n) && (n <=? 102) then Some (n - 87)
  else None.

Fixpoint hex_value_from (acc : Z) (s : string) : option Z :=
  match s with
  | EmptyString => Some acc
  | String c s' =>
      match hex_digit_value c with
      | Some d => hex_value_from (16 * acc + d) s'
      | None => None
      end
  end.

Definition hex_value (s : string) : option Z := hex_value_from 0 s.

(** ** The debugger and the bus loop *)

(** How a call that may wait for the serial line ends: it returns, it is
    still polling [Serial.read()] with nothing received (line 218), or a
    statement of the sketch has indexed an array outside its bounds. *)
Inductive outcome :=
| Returned (s : state)
| Spinning (s : state)
| OutOfBounds.

Section Sketch.
Variable P : pins.
Variable rom : list Z.
(** [disasm], which takes the [read_data] function, an address and a
    [char buf[16]], is declared in the sketch and defined elsewhere: here it
    is the text it leaves in [buf].  The reads it makes through [read_data]
    are its own and are not followed: the hook hands it the bus address as
    it is (line 192), decoded or not, so on a stepping SYNC cycle they may
    index past [rom], and no [OutOfBounds] outcome shows it.  Statements
    about outcomes speak of the accesses of the sketch's own statements. *)
Variable disasm : (Z -> option Z) -> Z -> string.

(** The receive interrupt of the Arduino core, which feeds Serial's queue:
    it takes from the USART what has been received.  It is pending while
    RXC0 is set and is served once interrupts are enabled; until then
    [Serial.available()] and [Serial.read()] do not see those bytes. *)
Definition rx_interrupt (s : state) : state :=
  set_uart [] (set_rx (rx s ++ uart s) s).

Definition sei (s : state) : state := rx_interrupt (set_irq true s).
Definition cli (s : state) : state := set_irq false s.

Definition debug_header (s : state) : state :=
  let s := Serial_println "" s in
  let s := Serial_println "6502ctl:" s in
  let s := Serial_println "    s to step" s in
  let s := Serial_println "    c to continue" s in
  let s := Serial_println "    b to break" s in
  Serial_println "    r to reset" s.

(** The text [snprintf] leaves in [serbuf] (lines 194-202). *)
Definition debug_line (s : state) (addr data octl : Z) : string :=
  let sync := pin_high octl (OCTL_SYNC P) in
  snprintf 64
    (String (if pin_high octl (OCTL_RWB P) then "r" else "W")%char
    (String (if sync then "S" else "-")%char
    (String (if pin_high octl (OCTL_MLB P) then "-" else "M")%char
    (String (if pin_high octl (OCTL_VPB P) then "-" else "V")%char
    (" " +:+ fmt_0x 4 addr +:+ " " +:+ fmt_0x 2 data +:+
     (if sync then " " else "") +:+
     (if sync then disasm (read_data rom s) addr else "")))))).

(** The command loop (lines 215-244).  [input] is Serial's queue, kept
    apart from the record so that the recursion is on it; every
    [Serial.read()] takes its head.  With the queue empty the loop is left
    when [debug_step] is false, and polls otherwise. *)
Fixpoint debug_loop (input : list ascii) (s : state) : outcome :=
  match input with
  | [] =>
      if debug_step s then Spinning (set_rx [] s) else Returned (set_rx [] s)
  | c :: rest =>
      let s := set_rx rest s in
      if Ascii.eqb c "s" then
        if debug_step s then Returned s else debug_loop rest s
      else if Ascii.eqb c "c" then
        if debug_step s then Returned (set_debug_step false s)
        else debug_loop rest s
      else if Ascii.eqb c "b" then
        if negb (debug_step s) then Returned (set_debug_step true s)
        else debug_loop rest s
      else if Ascii.eqb c "r" then Returned (reset P s)
      else debug_loop rest s
  end.

(** [exit: cli();] *)
Definition debug_exit (o : outcome) : outcome :=
  match o with
  | Returned s => Returned (cli s)
  | o => o
  end.

Definition debug (addr data octl : Z) (s : state) : outcome :=
  let s := sei s in
  let s :=
    if debug_step s then Serial_println (debug_line s addr data octl) s
    else s in
  debug_exit (debug_loop (rx s) s).

(** [UCSR0A & (1 << RXC0)]: the flag of the USART is set while its
    receiver holds unread data (ATmega 2560 datasheet 23.6.2, quoted at
    lines 251-260).  It says nothing of Serial's queue. *)
Definition RXC0_set (s : state) : bool := negb (bool_decide (uart s = [])).

(** [debug_step || (UCSR0A & (1 << RXC0))] *)
Definition debug_available (s : state) : bool := debug_step s || RXC0_set s.

(** The data transfer of one cycle (lines 298-314): the datum and the state
    after it, or [None] when [read_data] indexed outside an array. *)
Definition bus_transfer (b : bus_sample) (s : state) : option (Z * state) :=
  let octl := read_octl b in
  let addr := read_abus b in
  if pin_high octl (OCTL_RWB P) then
    if RAMADDR addr || ROMADDR addr then
      match read_data rom s addr with
      | Some data => Some (data, write_dbus data s)
      | None => None
      end
    else Some (read_dbus b s)
  else
    let (data, s) := read_dbus b s in
    Some (data, write_data addr data s).

(** The end of a cycle (lines 323-324). *)
Definition end_cycle (o : outcome) : outcome :=
  match o with
  | Returned s => Returned (clock_fall P (tristate_dbus s))
  | o => o
  end.

(** One turn of the [for (;;)] of [loop]. *)
Definition loop_body (b : bus_sample) (s : state) : outcome :=
  let s := clock_rise P s in
  match bus_transfer b s with
  | None => OutOfBounds
  | Some (data, s) =>
      end_cycle
        (if debug_available s
         then debug (read_abus b) data (read_octl b) s
         else Returned s)
  end.

(** [loop] over the bus samples of its first cycles; it stops where the
    debugger is left polling. *)
Fixpoint cycles (bs : list bus_sample) (s : state) : outcome :=
  match bs with
  | [] => Returned s
  | b :: bs' =>
      match loop_body b s with
      | Returned s' => cycles bs' s'
      | o => o
      end
  end.

Definition loop (bs : list bus_sample) (s : state) : outcome :=
  cycles bs (cli s).

(** [setup]; the address and OCTL ports are inputs and appear only as
    [bus_sample]s. *)
Definition setup (s : state) : state :=
  let s := setup_dbus s in
  let s := setup_ictl s in
  let s :=
    write_ictl 255
      (Z.lor (ICTL_RDY P) (Z.lor (ICTL_IRQB P) (Z.lor (ICTL_NMIB P)
        (Z.lor (ICTL_SOB P) (ICTL_BE P))))) s in
  let s := reset P s in
  debug_header s.
End Sketch.

(** The globals as the C startup code leaves them, and the registers after
    a reset of the ATmega. *)
Definition power_on : state :=
  mkState (replicate (Z.to_nat RAMSIZE) 0) true 0 0 [] 0 0 true [] [] [].

(** The state invariant the array declarations give. *)
Definition wf_state (s : state) : Prop := length (ram s) = Z.to_nat RAMSIZE.
Definition wf_rom (rom : list Z) : Prop := length rom = Z.to_nat ROMSIZE.

(** ** Vocabulary of the statements *)

(** A 16-bit address, as [uint16_t] holds it. *)
Definition is_u16 (a : Z) : Prop := 0 <= a < 65536.

(** Sequences of memory operations.  [read_data] computes a value and
    leaves the state as it is, so a read is the identity on states. *)
Inductive mem_op :=
| Read (a : Z)
| Write (a v : Z).

Definition apply_op (op : mem_op) (s : state) : state :=
  match op with
  | Read _ => s
  | Write a v => write_data a v s
  end.

Fixpoint run_ops (ops : list mem_op) (s : state) : state :=
  match ops with
  | [] => s
  | op :: ops' => run_ops ops' (apply_op op s)
  end.

(** The operation addresses a 16-bit location other than [a], or reads. *)
Definition spares (a : Z) (op : mem_op) : Prop :=
  match op with
  | Read _ => True
  | Write a' _ => is_u16 a' /\ a' <> a
  end.

(** The three regions of the decoder. *)
Inductive region := RAM | ROM | UNMAPPED.

Definition classify (a : Z) : region :=
  if RAMADDR a then RAM else if ROMADDR a then ROM else UNMAPPED.

(** The read of the specification, section 4.2, for comparison with
    [read_data]: a ROM offset is compared with the size of the image before
    it is used, and a read that would pass the image fails fast. *)
Inductive checked_read :=
| Value (v : Z)
| FailFast
| NoValue.

Definition read_data_checked (rom : list Z) (s : state) (a : Z) :
    checked_read :=
  match classify a with
  | RAM =>
      match ram s !! Z.to_nat (Z.land a RAMMASK) with
      | Some v => Value v
      | None => FailFast
      end
  | ROM =>
      let offset := a - 0xA000 in
      if offset <? Z.of_nat (length rom) then
        match rom !! Z.to_nat offset with
        | Some v => Value v
        | None => FailFast
        end
      else FailFast
  | UNMAPPED => NoValue
  end.

(** The levels of RESB and PHI2 in a value of the ICTL port. *)
Definition ictl_levels (P : pins) (p : Z) : bool * bool :=
  (pin_high p (ICTL_RESB P), pin_high p (ICTL_PHI2 P)).

(** [n] clock cycles seen on the port with RESB at level [resb]: PHI2 is
    driven high, then low, [n] times. *)
Fixpoint full_cycles (n : nat) (resb : bool) : list (bool * bool) :=
  match n with
  | O => []
  | S k => (resb, true) :: (resb, false) :: full_cycles k resb
  end.

(** Two states that differ at most in the ICTL port and its trace. *)
Definition same_but_ictl (s s' : state) : Prop :=
  ram s' = ram s /\ debug_step s' = debug_step s /\
  ictl_ddr s' = ictl_ddr s /\ dbus_ddr s' = dbus_ddr s /\
  dbus_port s' = dbus_port s /\ irq_enabled s' = irq_enabled s /\
  rx s' = rx s /\ tx s' = tx s /\ uart s' = uart s.

(** The shape of a transcript line: four flag characters, a space, the
    address numeral, a space, the datum numeral, and a tail. *)
Definition transcript (dir sync mlb vpb : ascii) (A D tail : string) : string :=
  String dir (String sync (String mlb (String vpb
    (" " +:+ A +:+ " " +:+ D +:+ tail)))).

(** The bytes that end the wait of a stepping debugger. *)
Definition resolves_stepping (c : ascii) : bool :=
  Ascii.eqb c "s" || Ascii.eqb c "c" || Ascii.eqb c "r".

(** A change of level of PHI2. *)
Inductive edge := Rising | Falling.

(** The edges of PHI2 in a sequence of (RESB, PHI2) levels that follows the
    PHI2 level [prev], each with the level of RESB when it is made. *)
Fixpoint clock_edges (prev : bool) (levels : list (bool * bool)) :
    list (bool * edge) :=
  match levels with
  | [] => []
  | (resb, phi2) :: rest =>
      (if negb prev && phi2 then [(resb, Rising)]
       else if prev && negb phi2 then [(resb, Falling)]
       else []) ++ clock_edges phi2 rest
  end.

(** [n] full clock cycles with RESB at level [resb]. *)
Fixpoint edge_cycles (n : nat) (resb : bool) : list (bool * edge) :=
  match n with
  | O => []
  | S k => (resb, Rising) :: (resb, Falling) :: edge_cycles k resb
  end.

(** The low-to-high changes in a sequence of levels that follows the
    level [prev]. *)
Fixpoint rising_edges (prev : bool) (levels : list bool) : nat :=
  match levels with
  | [] => O
  | l :: rest =>
      ((if negb prev && l then 1 else 0) + rising_edges l rest)%nat
  end.

(** The state an outcome carries. *)
Definition outcome_state (o : outcome) : option state :=
  match o with
  | Returned s | Spinning s => Some s
  | OutOfBounds => None
  end.

Definition is_spinning (o : outcome) : bool :=
  match o with
  | Spinning _ => true
  | _ => false
  end.

(** The state in which the command loop of the hook starts, but for
    Serial's queue: interrupts are enabled, the receive interrupt has
    emptied the USART, and when stepping [line] has been printed. *)
Definition hook_start (line : string) (s : state) : state :=
  if debug_step s
  then Serial_println line (set_uart [] (set_irq true s))
  else set_uart [] (set_irq true s).

(** The control inputs of the 6502 that [setup] deasserts. *)
Definition control_masks (P : pins) : list Z :=
  [ICTL_RDY P; ICTL_IRQB P; ICTL_NMIB P; ICTL_SOB P; ICTL_BE P].

(** The ICTL pins are distinct bits as far as [setup] needs: PHI2 and RESB
    differ, and neither is one of the five control inputs. *)
Definition wf_pins (P : pins) : Prop :=
  wf_ictl P /\
  Forall (fun m => mask8 m /\ Z.land (ICTL_PHI2 P) m = 0 /\
                   Z.land (ICTL_RESB P) m = 0) (control_masks P).

(** The lines of [debug_header]. *)
Definition banner : list string :=
  [""; "6502ctl:"; "    s to step"; "    c to continue"; "    b to break";
   "    r to reset"].

(** The bytes that a running debugger acts on. *)
Definition resolves_running (c : ascii) : bool :=
  Ascii.eqb c "b" || Ascii.eqb c "r".

(** What the hook leaves alone whatever it receives. *)
Definition hook_frame (s s' : state) : Prop :=
  ram s' = ram s /\ ictl_ddr s' = ictl_ddr s /\ dbus_ddr s' = dbus_ddr s /\
  dbus_port s' = dbus_port s /\ tx s' = tx s.

(** [n] clock pulses as levels of PHI2. *)
Fixpoint pulses (n : nat) : list bool :=
  match n with
  | O => []
  | S k => true :: false :: pulses k
  end.

(** A sample pin assignment, a ROM image of NOPs and a one-word
    disassembler, to run the definitions on. *)
Definition sample_pins : pins := mkPins 1 2 4 8 1 2 4 8 16 32 64.
Definition sample_rom : list Z := replicate (Z.to_nat ROMSIZE) 0xEA.
Definition sample_disasm (_ : Z -> option Z) (_ : Z) : string := "nop".

(** ** Memory decoder *)

Lemma land_RAMMASK (a : Z) : 0 <= a < 0x1000 -> Z.land a RAMMASK = a.
Proof.
  intros Ha. change RAMMASK with (Z.ones 12).
  rewrite Z.land_ones by lia. apply Z.mod_small. change (2 ^ 12) with 4096. lia.
Qed.

Lemma RAMADDR_true (a : Z) : RAMADDR a = true <-> a < 0x1000.
Proof. unfold RAMADDR. apply Z.ltb_lt. Qed.

Lemma RAMADDR_false (a : Z) : RAMADDR a = false <-> 0x1000 <= a.
Proof. unfold RAMADDR. rewrite Z.ltb_ge. reflexivity. Qed.

Lemma ROMADDR_true (a : Z) : ROMADDR a = true <-> 0xA000 <= a.
Proof. unfold ROMADDR. rewrite Z.geb_leb. apply Z.leb_le. Qed.

Lemma rom_index_rom (a : Z) :
  is_u16 a -> ROMADDR a = true ->
  rom_index a = a - 0xA000 /\ 0 <= rom_index a < ROMSIZE.
Proof.
  intros [Hlo Hhi] Hrom. apply ROMADDR_true in Hrom.
  unfold rom_index, u16. rewrite Z.mod_small by lia.
  unfold ROMSIZE. lia.
Qed.

Lemma write_data_wf (a v : Z) (s : state) :
  wf_state s -> wf_state (write_data a v s).
Proof.
  unfold wf_state, write_data. intros Hs.
  destruct (RAMADDR a); simpl; [rewrite length_insert|]; exact Hs.
Qed.

Lemma write_data_same (rom : list Z) (a v : Z) (s : state) :
  wf_state s -> 0 <= a < 0x1000 ->
  read_data rom (write_data a v s) a = Some v.
Proof.
  intros Hs Ha. unfold read_data, write_data.
  assert (RAMADDR a = true) as -> by (apply RAMADDR_true; lia).
  simpl. rewrite land_RAMMASK by exact Ha.
  apply list_lookup_insert_eq. rewrite Hs. unfold RAMSIZE. lia.
Qed.

Lemma write_data_other (rom : list Z) (a a' v : Z) (s : state) :
  0 <= a < 0x1000 -> is_u16 a' -> a' <> a ->
  read_data rom (write_data a' v s) a = read_data rom s a.
Proof.
  intros Ha Ha' Hne. unfold read_data, write_data.
  assert (RAMADDR a = true) as -> by (apply RAMADDR_true; lia).
  destruct (RAMADDR a') eqn:E; [|reflexivity].
  apply RAMADDR_true in E. simpl.
  rewrite !land_RAMMASK by (unfold is_u16 in Ha'; lia).
  apply list_lookup_insert_ne. unfold is_u16 in Ha'. lia.
Qed.

Lemma run_ops_wf (ops : list mem_op) (s : state) :
  wf_state s -> wf_state (run_ops ops s).
Proof.
  revert s. induction ops as [|op ops IH]; intros s Hs; simpl; [exact Hs|].
  apply IH. destruct op; simpl; [exact Hs | apply write_data_wf, Hs].
Qed.

Lemma run_ops_spared (rom : list Z) (a : Z) (ops : list mem_op) (s : state) :
  0 <= a < 0x1000 -> Forall (spares a) ops ->
  read_data rom (run_ops ops s) a = read_data rom s a.
Proof.
  intros Ha Hops. revert s.
  induction Hops as [|op ops Hop _ IH]; intros s; simpl; [reflexivity|].
  rewrite IH. destruct op as [r|a' v']; simpl; [reflexivity|].
  destruct Hop as [Hu Hne]. apply write_data_other; assumption.
Qed.

Lemma read_data_rom (rom : list Z) (s : state) (a : Z) :
  is_u16 a -> ROMADDR a = true ->
  read_data rom s a = rom !! Z.to_nat (a - 0xA000).
Proof.
  intros Hu Hrom. unfold read_data, pgm_read_byte.
  destruct (rom_index_rom a Hu Hrom) as [-> _].
  assert (RAMADDR a = false) as ->
    by (apply RAMADDR_false; apply ROMADDR_true in Hrom; lia).
  reflexivity.
Qed.

(** C3: for an address [a] below 0x1000, [read_data a] returns the value of
    the latest [write_data a v], whatever reads, and writes to other
    addresses, came in between; with no operation in between this is a write
    followed at once by a read. *)
Theorem ram_read_after_write (rom : list Z) (s : state) (a v : Z)
    (ops : list mem_op) :
  wf_state s -> 0 <= a < 0x1000 -> Forall (spares a) ops ->
  read_data rom (run_ops ops (write_data a v s)) a = Some v /\
  read_data rom (write_data a v s) a = Some v.
Proof.
  intros Hs Ha Hops. split.
  - rewrite run_ops_spared by assumption. apply write_data_same; assumption.
  - apply write_data_same; assumption.
Qed.

Lemma ram_read_after_write_witness :
  read_data sample_rom
    (run_ops [Write 0x11 7; Read 0x10; Write 0xA000 9; Write 0x1010 3]
       (write_data 0x10 0x42 power_on)) 0x10 = Some 0x42 /\
  read_data sample_rom (write_data 0x10 0x42 power_on) 0x10 = Some 0x42.
Proof.
  apply (ram_read_after_write sample_rom power_on 0x10 0x42).
  - reflexivity.
  - lia.
  - repeat constructor; unfold is_u16; lia.
Defined.

Lemma rom_lookup (rom : list Z) (a : Z) :
  wf_rom rom -> is_u16 a -> ROMADDR a = true ->
  is_Some (rom !! Z.to_nat (a - 0xA000)).
Proof.
  intros Hrom Hu Ha. apply lookup_lt_is_Some. rewrite Hrom.
  destruct (rom_index_rom a Hu Ha) as [E H]. rewrite E in H. lia.
Qed.

(** C4: a write to an address that is not RAM ([0x1000 <= a]) leaves the
    state, and so all of RAM, as it was; and a read of a ROM address
    ([0xA000 <= r]) returns the byte of the image at offset [r - 0xA000]
    whatever operations [ops] were run before it. *)
Theorem non_ram_write_rom_read (rom : list Z) (s : state) (a v r : Z)
    (ops : list mem_op) :
  wf_rom rom -> 0x1000 <= a -> is_u16 r -> 0xA000 <= r ->
  write_data a v s = s /\
  exists byte,
    rom !! Z.to_nat (r - 0xA000) = Some byte /\
    read_data rom (run_ops ops s) r = Some byte /\
    read_data rom (run_ops ops (write_data r v s)) r = Some byte.
Proof.
  intros Hrom Ha Hu Hr. apply ROMADDR_true in Hr.
  destruct (rom_lookup rom r Hrom Hu Hr) as [byte Hb].
  split.
  - unfold write_data. apply RAMADDR_false in Ha. rewrite Ha. reflexivity.
  - exists byte. rewrite !read_data_rom by assumption. auto.
Qed.

Lemma non_ram_write_rom_read_witness :
  write_data 0xA000 0xFF power_on = power_on /\
  exists byte,
    sample_rom !! Z.to_nat (0xA000 - 0xA000) = Some byte /\
    read_data sample_rom (run_ops [Write 0x20 1; Write 0xA000 2] power_on)
      0xA000 = Some byte /\
    read_data sample_rom
      (run_ops [Write 0x20 1; Write 0xA000 2] (write_data 0xA000 0xFF power_on))
      0xA000 = Some byte.
Proof.
  apply (non_ram_write_rom_read sample_rom power_on 0xA000 0xFF 0xA000).
  - reflexivity.
  - lia.
  - unfold is_u16. lia.
  - lia.
Defined.

Lemma read_data_decoded (rom : list Z) (s : state) (a : Z) :
  wf_rom rom -> wf_state s -> is_u16 a -> RAMADDR a || ROMADDR a = true ->
  is_Some (read_data rom s a).
Proof.
  intros Hrom Hs Hu Hcl.
  destruct (ROMADDR a) eqn:Er.
  - rewrite read_data_rom by assumption. apply rom_lookup; assumption.
  - rewrite orb_false_r in Hcl. unfold read_data. rewrite Hcl.
    apply RAMADDR_true in Hcl. unfold is_u16 in Hu.
    rewrite land_RAMMASK by lia.
    apply lookup_lt_is_Some. rewrite Hs. unfold RAMSIZE. lia.
Qed.

Lemma read_abus_u16 (b : bus_sample) : is_u16 (read_abus b).
Proof. unfold is_u16, read_abus, u16. apply Z.mod_pos_bound. lia. Qed.

(** With the arrays at their declared sizes the transfer of a cycle
    indexes inside them, and it leaves the debugger's data alone. *)
Lemma bus_transfer_some (P : pins) (rom : list Z) (b : bus_sample)
    (s : state) :
  wf_rom rom -> wf_state s ->
  exists data s1,
    bus_transfer P rom b s = Some (data, s1) /\
    debug_step s1 = debug_step s /\ rx s1 = rx s /\ tx s1 = tx s /\
    uart s1 = uart s.
Proof.
  intros Hrom Hs. unfold bus_transfer.
  destruct (pin_high (read_octl b) (OCTL_RWB P)).
  - destruct (RAMADDR (read_abus b) || ROMADDR (read_abus b)) eqn:E.
    + destruct (read_data_decoded rom s (read_abus b) Hrom Hs
                  (read_abus_u16 b) E) as [v ->].
      eexists _, _. split; [reflexivity|]. auto.
    + eexists _, _. split; [reflexivity|]. auto.
  - cbn [read_dbus]. eexists _, _. split; [reflexivity|].
    unfold write_data. destruct (RAMADDR (read_abus b)); auto.
Qed.

(** C10: a 16-bit address that the decoder classifies as RAM or ROM makes
    [read_data] index inside the array it reads; for a ROM address the
    index is [a - 0xA000], below the size of the image, 24576.  The bus
    loop calls [read_data] under that classification only, so its transfer
    never indexes outside an array. *)
Theorem read_data_in_bounds (rom : list Z) (s : state) (a : Z) :
  wf_rom rom -> wf_state s -> is_u16 a -> RAMADDR a || ROMADDR a = true ->
  is_Some (read_data rom s a) /\
  (if ROMADDR a
   then rom_index a = a - 0xA000 /\ 0 <= rom_index a < 24576
   else 0 <= Z.land a RAMMASK < 4096) /\
  forall P b, is_Some (bus_transfer P rom b s).
Proof.
  intros Hrom Hs Hu Hcl.
  split; [apply read_data_decoded; assumption|]. split.
  - destruct (ROMADDR a) eqn:Er.
    + apply rom_index_rom; assumption.
    + rewrite orb_false_r in Hcl. apply RAMADDR_true in Hcl.
      unfold is_u16 in Hu. rewrite land_RAMMASK by lia. lia.
  - intros P b.
    destruct (bus_transfer_some P rom b s Hrom Hs) as (d & s1 & -> & _).
    eexists. reflexivity.
Qed.

Lemma read_data_in_bounds_witness :
  is_Some (read_data sample_rom power_on 0xFFFF) /\
  (if ROMADDR 0xFFFF
   then rom_index 0xFFFF = 0xFFFF - 0xA000 /\ 0 <= rom_index 0xFFFF < 24576
   else 0 <= Z.land 0xFFFF RAMMASK < 4096) /\
  forall P b, is_Some (bus_transfer P sample_rom b power_on).
Proof.
  apply (read_data_in_bounds sample_rom power_on 0xFFFF).
  - reflexivity.
  - reflexivity.
  - unfold is_u16. lia.
  - reflexivity.
Defined.

(** [read_data] makes no comparison and has no failing path.  On a 16-bit
    address classified ROM a read that compared first would give the same
    byte: the offset [a - 0xA000] is smaller than the size of the image, so
    the comparison could not fail there. *)
Lemma rom_read_is_checked_read (rom : list Z) (s : state) (a : Z) :
  wf_rom rom -> is_u16 a -> classify a = ROM ->
  a - 0xA000 < Z.of_nat (length rom) /\
  exists byte,
    rom !! Z.to_nat (a - 0xA000) = Some byte /\
    read_data_checked rom s a = Value byte /\
    read_data rom s a = Some byte.
Proof.
  intros Hrom Hu Hcl. unfold classify in Hcl.
  destruct (RAMADDR a) eqn:Era; [discriminate|].
  destruct (ROMADDR a) eqn:Ero; [|discriminate].
  destruct (rom_index_rom a Hu Ero) as [E Hlt]. rewrite E in Hlt.
  assert (a - 0xA000 < Z.of_nat (length rom)) as Hin
    by (rewrite Hrom; unfold ROMSIZE in *; lia).
  split; [exact Hin|].
  destruct (rom_lookup rom a Hrom Hu Ero) as [byte Hb].
  exists byte. split; [exact Hb|]. split.
  - unfold read_data_checked, classify. rewrite Era, Ero. cbv zeta.
    apply Z.ltb_lt in Hin. rewrite Hin, Hb. reflexivity.
  - rewrite read_data_rom by assumption. exact Hb.
Qed.

Lemma rom_read_is_checked_read_witness :
  0xA000 - 0xA000 < Z.of_nat (length sample_rom) /\
  exists byte,
    sample_rom !! Z.to_nat (0xA000 - 0xA000) = Some byte /\
    read_data_checked sample_rom power_on 0xA000 = Value byte /\
    read_data sample_rom power_on 0xA000 = Some byte.
Proof.
  apply (rom_read_is_checked_read sample_rom power_on 0xA000).
  - reflexivity.
  - unfold is_u16. lia.
  - reflexivity.
Defined.

(** Outside the two decoded regions the two reads part: the sketch's
    [read_data] takes its ROM branch and indexes past the image, where the
    checked read has no value to give. *)
Lemma read_data_unmapped (rom : list Z) (s : state) (a : Z) :
  wf_rom rom -> is_u16 a -> classify a = UNMAPPED ->
  ROMSIZE <= rom_index a /\ read_data rom s a = None /\
  read_data_checked rom s a = NoValue.
Proof.
  intros Hrom Hu Hcl. unfold read_data_checked. rewrite Hcl.
  unfold classify in Hcl.
  destruct (RAMADDR a) eqn:Era; [discriminate|].
  destruct (ROMADDR a) eqn:Ero; [discriminate|].
  apply RAMADDR_false in Era. unfold ROMADDR in Ero.
  rewrite Z.geb_leb in Ero. apply Z.leb_gt in Ero.
  assert (rom_index a = a + 0x6000) as E.
  { unfold rom_index, u16. unfold is_u16 in Hu.
    replace (a - 0xA000) with (a + 0x6000 + (-1) * 65536) by lia.
    rewrite Z.mod_add by lia. apply Z.mod_small. lia. }
  split; [rewrite E; unfold ROMSIZE; lia|]. split; [|reflexivity].
  unfold read_data, pgm_read_byte.
  assert (RAMADDR a = false) as -> by (apply RAMADDR_false; lia).
  apply lookup_ge_None. rewrite Hrom, E. unfold ROMSIZE. lia.
Qed.

(** ** Port writes, clock and reset *)

Lemma land_mask8 (m : Z) : 0 <= m < 256 -> Z.land 255 m = m.
Proof.
  intros Hm. rewrite Z.land_comm. change 255 with (Z.ones 8).
  rewrite Z.land_ones by lia. apply Z.mod_small. change (2 ^ 8) with 256. lia.
Qed.

Lemma land_u8 (x m : Z) : 0 <= m < 256 -> Z.land (u8 x) m = Z.land x m.
Proof.
  intros Hm. unfold u8. change 256 with (2 ^ 8).
  rewrite <- Z.land_ones by lia. rewrite <- Z.land_assoc.
  change (Z.ones 8) with 255. rewrite land_mask8 by exact Hm. reflexivity.
Qed.

Lemma land_lnot_disjoint (m m' : Z) :
  Z.land m m' = 0 -> Z.land (Z.lnot m) m' = m'.
Proof.
  intros H. apply Z.bits_inj'. intros n Hn.
  rewrite Z.land_spec, Z.lnot_spec by exact Hn.
  assert (Z.testbit (Z.land m m') n = false) as Hb
    by (rewrite H; apply Z.bits_0).
  rewrite Z.land_spec in Hb.
  destruct (Z.testbit m n), (Z.testbit m' n); simpl in *; congruence.
Qed.

(** The bits under the mask take the bits of [v]. *)
Lemma write_ictl_same (m v : Z) (s : state) :
  0 <= m < 256 ->
  Z.land (ictl_port (write_ictl m v s)) m = Z.land v m.
Proof.
  intros Hm. simpl. rewrite land_u8 by exact Hm.
  rewrite Z.land_lor_distr_l, <- !Z.land_assoc.
  rewrite (Z.land_comm (Z.lnot m) m), Z.land_lnot_diag, Z.land_0_r.
  rewrite Z.land_diag. apply Z.lor_0_l.
Qed.

(** The bits outside the mask keep theirs. *)
Lemma write_ictl_other (m m' v : Z) (s : state) :
  0 <= m' < 256 -> Z.land m m' = 0 ->
  Z.land (ictl_port (write_ictl m v s)) m' = Z.land (ictl_port s) m'.
Proof.
  intros Hm' Hd. simpl. rewrite land_u8 by exact Hm'.
  rewrite Z.land_lor_distr_l, <- !Z.land_assoc.
  rewrite land_lnot_disjoint by exact Hd.
  rewrite Hd, Z.land_0_r. apply Z.lor_0_r.
Qed.

Lemma pin_high_write_high (m : Z) (s : state) :
  mask8 m -> pin_high (ictl_port (write_ictl m 255 s)) m = true.
Proof.
  intros Hm. unfold mask8 in Hm. unfold pin_high.
  rewrite write_ictl_same, land_mask8 by lia.
  apply negb_true_iff, Z.eqb_neq. lia.
Qed.

Lemma pin_high_write_low (m : Z) (s : state) :
  mask8 m -> pin_high (ictl_port (write_ictl m 0 s)) m = false.
Proof.
  intros Hm. unfold mask8 in Hm. unfold pin_high.
  rewrite write_ictl_same by lia. reflexivity.
Qed.

Lemma pin_high_write_other (m m' v : Z) (s : state) :
  mask8 m' -> Z.land m m' = 0 ->
  pin_high (ictl_port (write_ictl m v s)) m' = pin_high (ictl_port s) m'.
Proof.
  intros Hm' Hd. unfold mask8 in Hm'. unfold pin_high.
  rewrite write_ictl_other by (lia || exact Hd). reflexivity.
Qed.

Lemma write_ictl_trace (m v : Z) (s : state) :
  ictl_trace (write_ictl m v s) =
  ictl_trace s ++ [ictl_port (write_ictl m v s)].
Proof. reflexivity. Qed.

Section ClockFacts.
Variable P : pins.
Hypothesis HP : wf_ictl P.

Lemma clock_rise_levels (s : state) :
  ictl_levels P (ictl_port (clock_rise P s)) =
  (pin_high (ictl_port s) (ICTL_RESB P), true).
Proof.
  destruct HP as (Hphi & Hres & Hd). unfold ictl_levels, clock_rise.
  rewrite pin_high_write_high by exact Hphi.
  rewrite pin_high_write_other by assumption. reflexivity.
Qed.

Lemma clock_fall_levels (s : state) :
  ictl_levels P (ictl_port (clock_fall P s)) =
  (pin_high (ictl_port s) (ICTL_RESB P), false).
Proof.
  destruct HP as (Hphi & Hres & Hd). unfold ictl_levels, clock_fall.
  rewrite pin_high_write_low by exact Hphi.
  rewrite pin_high_write_other by assumption. reflexivity.
Qed.

Lemma write_RESB_levels (v : Z) (s : state) :
  ictl_levels P (ictl_port (write_ictl (ICTL_RESB P) v s)) =
  (pin_high (ictl_port (write_ictl (ICTL_RESB P) v s)) (ICTL_RESB P),
   pin_high (ictl_port s) (ICTL_PHI2 P)).
Proof.
  destruct HP as (Hphi & Hres & Hd). unfold ictl_levels.
  rewrite (pin_high_write_other (ICTL_RESB P) (ICTL_PHI2 P))
    by (try assumption; rewrite Z.land_comm; exact Hd).
  reflexivity.
Qed.

(** [clock_cycle n] appends [n] high-low pairs to the trace and leaves
    RESB where it was; after at least one cycle PHI2 is low. *)
Lemma clock_cycle_trace (n : nat) (s : state) :
  exists new,
    ictl_trace (clock_cycle P n s) = ictl_trace s ++ new /\
    map (ictl_levels P) new =
      full_cycles n (pin_high (ictl_port s) (ICTL_RESB P)) /\
    pin_high (ictl_port (clock_cycle P n s)) (ICTL_RESB P) =
      pin_high (ictl_port s) (ICTL_RESB P) /\
    (n <> O ->
       pin_high (ictl_port (clock_cycle P n s)) (ICTL_PHI2 P) = false).
Proof.
  revert s. induction n as [|k IH]; intros s.
  - exists []. simpl. rewrite app_nil_r. repeat split; congruence.
  - destruct (IH (clock_fall P (clock_rise P s))) as (new & Ht & Hl & Hr & Hp).
    pose proof (clock_rise_levels s) as Hrise.
    pose proof (clock_fall_levels (clock_rise P s)) as Hfall.
    assert (pin_high (ictl_port (clock_fall P (clock_rise P s))) (ICTL_RESB P)
            = pin_high (ictl_port s) (ICTL_RESB P)) as Hkeep.
    { unfold ictl_levels in Hrise, Hfall. congruence. }
    exists (ictl_port (clock_rise P s)
            :: ictl_port (clock_fall P (clock_rise P s)) :: new).
    simpl clock_cycle. repeat split.
    + rewrite Ht. unfold clock_fall at 1. rewrite write_ictl_trace.
      unfold clock_rise at 1. rewrite write_ictl_trace.
      rewrite <- !app_assoc. reflexivity.
    + assert (pin_high (ictl_port (clock_rise P s)) (ICTL_RESB P)
              = pin_high (ictl_port s) (ICTL_RESB P)) as Hmid
        by (unfold ictl_levels in Hrise; congruence).
      cbn [map full_cycles]. rewrite Hrise, Hfall, Hl, Hkeep, Hmid.
      reflexivity.
    + congruence.
    + intros _. destruct k as [|k'].
      * cbn [clock_cycle]. unfold ictl_levels in Hfall. congruence.
      * apply Hp. discriminate.
Qed.

(** [reset] in its four parts: the write that lowers RESB, the cycles of
    the low phase, the write that raises RESB, the cycles of the high
    phase. *)
Lemma reset_trace_parts (s : state) :
  exists p1 n1 p2 n2,
    ictl_trace (reset P s) = ictl_trace s ++ p1 :: n1 ++ p2 :: n2 /\
    ictl_levels P p1 = (false, pin_high (ictl_port s) (ICTL_PHI2 P)) /\
    map (ictl_levels P) n1 = full_cycles RESB_0_NCLK false /\
    ictl_levels P p2 = (true, false) /\
    map (ictl_levels P) n2 = full_cycles RESB_1_NCLK true.
Proof.
  destruct HP as (Hphi & Hres & Hd).
  set (s1 := write_ictl (ICTL_RESB P) 0 s).
  destruct (clock_cycle_trace RESB_0_NCLK s1) as (n1 & Ht1 & Hl1 & Hr1 & Hp1).
  set (s2 := clock_cycle P RESB_0_NCLK s1) in *.
  set (s3 := write_ictl (ICTL_RESB P) 255 s2).
  destruct (clock_cycle_trace RESB_1_NCLK s3) as (n2 & Ht2 & Hl2 & _ & _).
  assert (pin_high (ictl_port s1) (ICTL_RESB P) = false) as Hlow
    by (apply pin_high_write_low; exact Hres).
  assert (pin_high (ictl_port s3) (ICTL_RESB P) = true) as Hhigh
    by (apply pin_high_write_high; exact Hres).
  pose proof (write_RESB_levels 0 s) as Hw1. fold s1 in Hw1.
  pose proof (write_RESB_levels 255 s2) as Hw2. fold s3 in Hw2.
  exists (ictl_port s1), n1, (ictl_port s3), n2.
  split; [|split; [|split; [|split]]].
  - unfold reset. fold s1. fold s2. fold s3. rewrite Ht2.
    unfold s3 at 1. rewrite write_ictl_trace. fold s3. rewrite Ht1.
    unfold s1 at 1. rewrite write_ictl_trace. fold s1.
    rewrite <- !app_assoc. reflexivity.
  - rewrite Hw1, Hlow. reflexivity.
  - rewrite Hl1, Hlow. reflexivity.
  - rewrite Hw2, Hhigh, Hp1 by discriminate. reflexivity.
  - rewrite Hl2, Hhigh. reflexivity.
Qed.

(** What [reset] writes to the ICTL port, in this order and with nothing
    else: RESB low, PHI2 as it was; PHI2 high and then low, twice, with
    RESB low; RESB high with PHI2 low; PHI2 high and then low, seven
    times, with RESB high. *)
Lemma reset_trace_levels (s : state) :
  exists new,
    ictl_trace (reset P s) = ictl_trace s ++ new /\
    map (ictl_levels P) new =
      (false, pin_high (ictl_port s) (ICTL_PHI2 P))
      :: full_cycles 2 false ++ (true, false) :: full_cycles 7 true /\
    length new = 20%nat.
Proof.
  destruct (reset_trace_parts s)
    as (p1 & n1 & p2 & n2 & Ht & H1 & Hn1 & H2 & Hn2).
  exists (p1 :: n1 ++ p2 :: n2).
  assert (map (ictl_levels P) (p1 :: n1 ++ p2 :: n2) =
          (false, pin_high (ictl_port s) (ICTL_PHI2 P))
          :: full_cycles 2 false ++ (true, false) :: full_cycles 7 true)
    as Hmap.
  { cbn [map]. rewrite map_app. cbn [map].
    rewrite H1, Hn1, H2, Hn2. reflexivity. }
  split; [exact Ht|]. split; [exact Hmap|].
  rewrite <- (length_map (ictl_levels P)), Hmap. reflexivity.
Qed.

(** X16: Counted as changes of level, the low-to-high edges of PHI2 are the nine
    drives when PHI2 was low at entry, as in [setup]; entered with PHI2
    high, as from the hook, the first drive repeats the level. *)
Lemma reset_rising_edges (s : state) :
  exists new,
    ictl_trace (reset P s) = ictl_trace s ++ new /\
    rising_edges (pin_high (ictl_port s) (ICTL_PHI2 P))
      (map (fun p => pin_high p (ICTL_PHI2 P)) new) =
    (if pin_high (ictl_port s) (ICTL_PHI2 P) then 8 else 9)%nat.
Proof.
  destruct (reset_trace_parts s)
    as (p1 & n1 & p2 & n2 & Ht & H1 & Hn1 & H2 & Hn2).
  exists (p1 :: n1 ++ p2 :: n2). split; [exact Ht|].
  replace (map (fun p => pin_high p (ICTL_PHI2 P)) (p1 :: n1 ++ p2 :: n2))
    with (map snd (map (ictl_levels P) (p1 :: n1 ++ p2 :: n2)))
    by (rewrite map_map; reflexivity).
  cbn [map]. rewrite map_app. cbn [map]. rewrite H1, Hn1, H2, Hn2.
  destruct (pin_high (ictl_port s) (ICTL_PHI2 P)); reflexivity.
Qed.
End ClockFacts.

(** C7, as the sketch has it: [reset] is a total function of the state
    and makes 20 writes to the ICTL port, in the order of lines 138-141.
    Entered with PHI2 low, as [setup] enters it, the clock makes 2 full
    cycles with RESB low and then 7 full cycles with RESB high, 18 edges and
    no more.  Entered with PHI2 high, as the r command enters it between
    [clock_rise] and [clock_fall] of the loop, the first [clock_rise]
    repeats the level: with RESB low the clock falls, rises and falls, one
    rising edge, before the 7 full cycles with RESB high. *)
Theorem reset_clock_edges (P : pins) (s : state) :
  wf_ictl P ->
  exists new,
    ictl_trace (reset P s) = ictl_trace s ++ new /\
    length new = 20%nat /\
    map (ictl_levels P) new =
      (false, pin_high (ictl_port s) (ICTL_PHI2 P))
      :: full_cycles 2 false ++ (true, false) :: full_cycles 7 true /\
    clock_edges (pin_high (ictl_port s) (ICTL_PHI2 P))
      (map (ictl_levels P) new) =
      (if pin_high (ictl_port s) (ICTL_PHI2 P)
       then [(false, Falling); (false, Rising); (false, Falling)]
       else edge_cycles 2 false) ++ edge_cycles 7 true.
Proof.
  intros HP. destruct (reset_trace_levels P HP s) as (new & Ht & Hl & Hn).
  exists new. split; [exact Ht|]. split; [exact Hn|]. split; [exact Hl|].
  rewrite Hl. destruct (pin_high (ictl_port s) (ICTL_PHI2 P)); reflexivity.
Qed.

Lemma reset_clock_edges_witness :
  exists new,
    ictl_trace (reset sample_pins power_on) = ictl_trace power_on ++ new /\
    length new = 20%nat /\
    map (ictl_levels sample_pins) new =
      (false, pin_high (ictl_port power_on) (ICTL_PHI2 sample_pins))
      :: full_cycles 2 false ++ (true, false) :: full_cycles 7 true /\
    clock_edges (pin_high (ictl_port power_on) (ICTL_PHI2 sample_pins))
      (map (ictl_levels sample_pins) new) =
      (if pin_high (ictl_port power_on) (ICTL_PHI2 sample_pins)
       then [(false, Falling); (false, Rising); (false, Falling)]
       else edge_cycles 2 false) ++ edge_cycles 7 true.
Proof.
  apply (reset_clock_edges sample_pins power_on).
  unfold wf_ictl, mask8. simpl. repeat split; lia.
Defined.

(** C7 fails for the reset that the r command starts.  One stepping cycle
    of the loop with r received: PHI2 rises (RESB high), and the hook calls
    [reset] with PHI2 high; with RESB low the clock makes a falling, a
    rising and a falling edge, not two full cycles. *)
Lemma reset_from_hook_edges :
  let s0 := set_rx ["r"%char] (cli (setup sample_pins power_on)) in
  pin_high (ictl_port s0) (ICTL_PHI2 sample_pins) = false /\
  exists s1,
    loop_body sample_pins sample_rom sample_disasm (mkBus 15 0 0xA0 0) s0
      = Returned s1 /\
    clock_edges false
      (map (ictl_levels sample_pins)
         (drop (length (ictl_trace s0)) (ictl_trace s1))) =
    [(true, Rising); (false, Falling); (false, Rising); (false, Falling)]
    ++ edge_cycles 7 true.
Proof.
  cbv zeta. split; [vm_compute; reflexivity|].
  eexists. split; [vm_compute; reflexivity|]. vm_compute. reflexivity.
Qed.

Lemma same_but_ictl_refl (s : state) : same_but_ictl s s.
Proof. unfold same_but_ictl. tauto. Qed.

Lemma same_but_ictl_trans (s1 s2 s3 : state) :
  same_but_ictl s1 s2 -> same_but_ictl s2 s3 -> same_but_ictl s1 s3.
Proof. unfold same_but_ictl. intuition congruence. Qed.

Lemma write_ictl_frame (m v : Z) (s : state) :
  same_but_ictl s (write_ictl m v s).
Proof. unfold same_but_ictl. simpl. tauto. Qed.

Lemma clock_cycle_frame (P : pins) (n : nat) (s : state) :
  same_but_ictl s (clock_cycle P n s).
Proof.
  revert s. induction n as [|k IH]; intros s; simpl.
  - apply same_but_ictl_refl.
  - eapply same_but_ictl_trans; [|apply IH].
    eapply same_but_ictl_trans; apply write_ictl_frame.
Qed.

Lemma reset_frame (P : pins) (s : state) : same_but_ictl s (reset P s).
Proof.
  unfold reset.
  eapply same_but_ictl_trans; [apply write_ictl_frame|].
  eapply same_but_ictl_trans; [apply clock_cycle_frame|].
  eapply same_but_ictl_trans; [apply write_ictl_frame|].
  apply clock_cycle_frame.
Qed.

(** C8: [reset] leaves every byte of the RAM array as it was, so every
    read gives what it gave before; the only parts of the state it touches
    are the ICTL port and its trace. *)
Theorem reset_keeps_ram (P : pins) (rom : list Z) (s : state) :
  ram (reset P s) = ram s /\
  (forall a, read_data rom (reset P s) a = read_data rom s a) /\
  same_but_ictl s (reset P s).
Proof.
  pose proof (reset_frame P s) as H.
  assert (ram (reset P s) = ram s) as E by apply H.
  split; [exact E|]. split; [|exact H].
  intros a. unfold read_data. rewrite E. reflexivity.
Qed.

(** ** Formatting *)

Lemma string_length_app (s1 s2 : string) :
  String.length (s1 +:+ s2) = (String.length s1 + String.length s2)%nat.
Proof.
  induction s1 as [|c s1 IH]; simpl; [reflexivity|].
  rewrite IH. reflexivity.
Qed.

Lemma substring_all (s : string) (m : nat) :
  (String.length s <= m)%nat -> String.substring 0 m s = s.
Proof.
  revert m. induction s as [|c s IH]; intros m Hm.
  - destruct m; reflexivity.
  - destruct m as [|m]; simpl in Hm; [lia|].
    simpl. rewrite IH by lia. reflexivity.
Qed.

Lemma hex_digit_value_digit (n : Z) :
  0 <= n < 16 -> hex_digit_value (hex_digit n) = Some n.
Proof.
  intros Hn. destruct n as [|p|p]; [reflexivity| |lia].
  do 4 (try destruct p as [p|p|]); try lia; reflexivity.
Qed.

Lemma hex_value_from_app (acc : Z) (s1 s2 : string) :
  hex_value_from acc (s1 +:+ s2) =
  match hex_value_from acc s1 with
  | Some v => hex_value_from v s2
  | None => None
  end.
Proof.
  revert acc. induction s1 as [|c s1 IH]; intros acc; simpl; [reflexivity|].
  destruct (hex_digit_value c); [apply IH | reflexivity].
Qed.

(** [hex_digits] prints [n] in at most [k] digits when [n < 16 ^ k], and
    the numeral reads back as [n]. *)
Lemma hex_digits_value (fuel k : nat) (n : Z) :
  (0 < k <= fuel)%nat -> 0 <= n < 16 ^ Z.of_nat k ->
  (1 <= String.length (hex_digits fuel n) <= k)%nat /\
  hex_value (hex_digits fuel n) = Some n.
Proof.
  revert k n. induction fuel as [|f IH]; intros k n Hk Hn; [lia|].
  simpl. destruct (n <? 16) eqn:E.
  - apply Z.ltb_lt in E. simpl. split; [lia|].
    unfold hex_value. simpl. rewrite hex_digit_value_digit by lia.
    reflexivity.
  - apply Z.ltb_ge in E.
    destruct k as [|k]; [lia|].
    assert (k <> O) as Hk0.
    { intros ->. simpl in Hn. lia. }
    replace (Z.of_nat (S k)) with (Z.of_nat k + 1) in Hn by lia.
    rewrite Z.pow_add_r, Z.pow_1_r in Hn by lia.
    assert (0 <= n / 16 < 16 ^ Z.of_nat k) as Hq.
    { split; [apply Z.div_pos; lia|].
      apply Z.div_lt_upper_bound; lia. }
    destruct (IH k (n / 16)) as [Hlen Hval]; [lia|exact Hq|].
    rewrite string_length_app. simpl. split; [lia|].
    unfold hex_value in *. rewrite hex_value_from_app, Hval. simpl.
    rewrite hex_digit_value_digit by (apply Z.mod_pos_bound; lia).
    f_equal. pose proof (Z.div_mod n 16). lia.
Qed.

Lemma zero_pad_length (k : nat) (s : string) :
  String.length (zero_pad k s) = (k + String.length s)%nat.
Proof.
  induction k as [|k IH]; simpl; [reflexivity|].
  rewrite IH. reflexivity.
Qed.

Lemma zero_pad_value (k : nat) (s : string) :
  hex_value (zero_pad k s) = hex_value s.
Proof. induction k as [|k IH]; simpl; [reflexivity | exact IH]. Qed.

(** [%0<k>x] of a number below [16 ^ k], [k] at most 4: exactly [k]
    digits that read back as the number. *)
Lemma fmt_0x_spec (k : nat) (n : Z) :
  (0 < k <= 4)%nat -> 0 <= n < 16 ^ Z.of_nat k ->
  String.length (fmt_0x k n) = k /\ hex_value (fmt_0x k n) = Some n.
Proof.
  intros Hk Hn. unfold fmt_0x.
  assert (u16 n = n) as ->.
  { unfold u16. apply Z.mod_small.
    assert (16 ^ Z.of_nat k <= 16 ^ 4) by (apply Z.pow_le_mono_r; lia).
    change (16 ^ 4) with 65536 in *. lia. }
  destruct (hex_digits_value 4 k n Hk Hn) as [Hlen Hval].
  cbv zeta. rewrite zero_pad_length, zero_pad_value. split; [lia|exact Hval].
Qed.

(** ** The debugger *)

Arguments reset : simpl never.

Section DebugFacts.
Variable P : pins.
Variable rom : list Z.
Variable disasm : (Z -> option Z) -> Z -> string.

Ltac case_command c :=
  destruct (Ascii.eqb c "s") eqn:?Es;
  [|destruct (Ascii.eqb c "c") eqn:?Ec;
    [|destruct (Ascii.eqb c "b") eqn:?Eb;
      [|destruct (Ascii.eqb c "r") eqn:?Er]]].

(** The loop overwrites the [rx] field before it reads it. *)
Lemma debug_loop_rx (input q : list ascii) (s : state) :
  debug_loop P input (set_rx q s) = debug_loop P input s.
Proof. destruct input; reflexivity. Qed.

(** With [debug_step] false the loop does not wait. *)
Lemma debug_loop_running (input : list ascii) (s : state) :
  debug_step s = false -> is_spinning (debug_loop P input s) = false.
Proof.
  revert s. induction input as [|c rest IH]; intros s Hs; simpl.
  - rewrite Hs. reflexivity.
  - rewrite Hs. case_command c; simpl; try reflexivity; apply IH; exact Hs.
Qed.

(** The loop prints nothing, keeps RAM, and indexes no array. *)
Lemma debug_loop_frame (input : list ascii) (s : state) :
  exists s', outcome_state (debug_loop P input s) = Some s' /\
             tx s' = tx s /\ ram s' = ram s.
Proof.
  revert s. induction input as [|c rest IH]; intros s; simpl.
  - destruct (debug_step s); eexists; simpl; eauto.
  - destruct (IH (set_rx rest s)) as (s' & Ho & Ht & Hr).
    pose proof (reset_frame P (set_rx rest s)) as Hf.
    case_command c; destruct (debug_step s);
      simpl; eauto; eexists; (split; [reflexivity|]); split; apply Hf.
Qed.

(** What the hook prints: its one line when stepping, nothing otherwise. *)
Lemma debug_tx (addr data octl : Z) (s : state) :
  exists s', outcome_state (debug P rom disasm addr data octl s) = Some s' /\
    tx s' = (if debug_step s
             then tx s ++ [debug_line P rom disasm s addr data octl]
             else tx s).
Proof.
  unfold debug.
  set (s1 := if debug_step (sei s)
             then Serial_println
                    (debug_line P rom disasm (sei s) addr data octl) (sei s)
             else sei s).
  destruct (debug_loop_frame (rx s1) s1) as (s' & Ho & Ht & _).
  destruct (debug_loop P (rx s1) s1) as [s2|s2|] eqn:E; simpl in Ho;
    inversion Ho; subst s2; eexists; (split; [reflexivity|]); simpl;
    rewrite Ht; unfold s1; simpl; destruct (debug_step s); reflexivity.
Qed.

(** The text of the line: flags, address and datum. *)
Lemma debug_line_shape (s : state) (addr data octl : Z) :
  is_u16 addr -> 0 <= data < 256 ->
  (String.length (disasm (read_data rom s) addr) <= 15)%nat ->
  exists A D,
    debug_line P rom disasm s addr data octl =
      transcript
        (if pin_high octl (OCTL_RWB P) then "r" else "W")
        (if pin_high octl (OCTL_SYNC P) then "S" else "-")
        (if pin_high octl (OCTL_MLB P) then "-" else "M")
        (if pin_high octl (OCTL_VPB P) then "-" else "V")
        A D
        (if pin_high octl (OCTL_SYNC P)
         then " " +:+ disasm (read_data rom s) addr else "") /\
    String.length A = 4%nat /\ hex_value A = Some addr /\
    String.length D = 2%nat /\ hex_value D = Some data.
Proof.
  intros Ha Hd Hdis.
  destruct (fmt_0x_spec 4 addr) as [HlA HvA];
    [lia | change (16 ^ Z.of_nat 4) with 65536; exact Ha |].
  destruct (fmt_0x_spec 2 data) as [HlD HvD];
    [lia | change (16 ^ Z.of_nat 2) with 256; exact Hd |].
  exists (fmt_0x 4 addr), (fmt_0x 2 data).
  split; [|auto].
  unfold debug_line, snprintf, transcript.
  rewrite substring_all.
  - destruct (pin_high octl (OCTL_SYNC P)); reflexivity.
  - cbn [String.length]. rewrite !string_length_app, HlA, HlD.
    destruct (pin_high octl (OCTL_SYNC P)); cbn [String.length]; lia.
Qed.
(** The hook is its command loop run on what Serial's queue holds followed
    by what the USART had received. *)
Lemma debug_unfold (addr data octl : Z) (s : state) :
  debug P rom disasm addr data octl s =
  debug_exit
    (debug_loop P (rx s ++ uart s)
       (hook_start (debug_line P rom disasm s addr data octl) s)).
Proof.
  rewrite <- (debug_loop_rx (rx s ++ uart s) (rx s ++ uart s)).
  unfold debug, hook_start.
  cbn [debug_step sei rx_interrupt set_irq set_rx set_uart].
  destruct (debug_step s); reflexivity.
Qed.

(** The hook on a state whose queue is [q]. *)
Lemma debug_set_rx (addr data octl : Z) (q : list ascii) (s : state) :
  debug P rom disasm addr data octl (set_rx q s) =
  debug_exit
    (debug_loop P (q ++ uart s)
       (hook_start (debug_line P rom disasm s addr data octl) s)).
Proof.
  rewrite debug_unfold. cbn [rx uart set_rx].
  rewrite <- (debug_loop_rx (q ++ uart s) q
                (hook_start (debug_line P rom disasm s addr data octl) s)).
  unfold hook_start. cbn [debug_step set_rx].
  destruct (debug_step s); reflexivity.
Qed.

(** The hook on a state whose queue is [q] and whose USART holds [u]. *)
Lemma debug_set_buffers (addr data octl : Z) (q u : list ascii)
    (s : state) :
  debug P rom disasm addr data octl (set_uart u (set_rx q s)) =
  debug_exit
    (debug_loop P (q ++ u)
       (hook_start (debug_line P rom disasm s addr data octl) s)).
Proof.
  rewrite debug_unfold. cbn [rx uart set_rx set_uart].
  rewrite <- (debug_loop_rx (q ++ u) q
                (hook_start (debug_line P rom disasm s addr data octl) s)).
  unfold hook_start. cbn [debug_step set_rx set_uart].
  destruct (debug_step s); reflexivity.
Qed.

(** While stepping, bytes other than s, c and r are read and dropped. *)
Lemma debug_loop_junk (junk rest : list ascii) (s : state) :
  debug_step s = true ->
  forallb (fun c => negb (resolves_stepping c)) junk = true ->
  debug_loop P (junk ++ rest) s = debug_loop P rest s.
Proof.
  intros Hs. induction junk as [|c junk IH]; intros Hj; [reflexivity|].
  cbn [forallb] in Hj. apply andb_true_iff in Hj. destruct Hj as [Hc Hj].
  unfold resolves_stepping in Hc. apply negb_true_iff in Hc.
  apply orb_false_iff in Hc. destruct Hc as [Hc Er].
  apply orb_false_iff in Hc. destruct Hc as [Es Ec].
  change ((c :: junk) ++ rest) with (c :: (junk ++ rest)).
  cbn [debug_loop]. rewrite Es, Ec, Er.
  cbn [debug_step set_rx]. rewrite Hs. cbn [negb].
  destruct (Ascii.eqb c "b"); rewrite debug_loop_rx; apply IH; exact Hj.
Qed.

Lemma debug_loop_step (rest : list ascii) (s : state) :
  debug_step s = true ->
  debug_loop P ("s"%char :: rest) s = Returned (set_rx rest s).
Proof. intros H. cbn [debug_loop]. cbn. rewrite H. reflexivity. Qed.


End DebugFacts.

(** ** The transcript line *)

(** C1, as the sketch has it: when the hook prints (it is entered with
    [debug_step] set), it prints one line made of, in this order: [r] when
    RWB is high and [W] when it is low; [S] when SYNC is high, else [-];
    [M] when the MLB pin is low, that is when the lock is active, and [-]
    when the pin is high; [V] when the VPB pin is low, and [-] when it is
    high; a space; the address in four lower-case hexadecimal digits; a
    space; the datum in two; and, on SYNC cycles only, a space and the
    disassembly text. *)
Theorem debug_transcript (P : pins) (rom : list Z)
    (disasm : (Z -> option Z) -> Z -> string)
    (s : state) (addr data octl : Z) :
  debug_step s = true -> is_u16 addr -> 0 <= data < 256 ->
  (String.length (disasm (read_data rom s) addr) <= 15)%nat ->
  exists s' A D,
    outcome_state (debug P rom disasm addr data octl s) = Some s' /\
    tx s' = tx s ++
      [transcript
         (if pin_high octl (OCTL_RWB P) then "r" else "W")
         (if pin_high octl (OCTL_SYNC P) then "S" else "-")
         (if pin_high octl (OCTL_MLB P) then "-" else "M")
         (if pin_high octl (OCTL_VPB P) then "-" else "V")
         A D
         (if pin_high octl (OCTL_SYNC P)
          then " " +:+ disasm (read_data rom s) addr else "")] /\
    String.length A = 4%nat /\ hex_value A = Some addr /\
    String.length D = 2%nat /\ hex_value D = Some data.
Proof.
  intros Hstep Ha Hd Hdis.
  destruct (debug_tx P rom disasm addr data octl s) as (s' & Ho & Ht).
  destruct (debug_line_shape P rom disasm s addr data octl Ha Hd Hdis)
    as (A & D & Hline & HA).
  exists s', A, D. split; [exact Ho|]. split; [|exact HA].
  rewrite Ht, Hstep, Hline. reflexivity.
Qed.

Lemma debug_transcript_witness :
  exists s' A D,
    outcome_state
      (debug sample_pins sample_rom sample_disasm 0xA000 0xEA 15
         (set_rx ["s"%char] power_on)) = Some s' /\
    tx s' = tx (set_rx ["s"%char] power_on) ++
      [transcript
         (if pin_high 15 (OCTL_RWB sample_pins) then "r" else "W")
         (if pin_high 15 (OCTL_SYNC sample_pins) then "S" else "-")
         (if pin_high 15 (OCTL_MLB sample_pins) then "-" else "M")
         (if pin_high 15 (OCTL_VPB sample_pins) then "-" else "V")
         A D
         (if pin_high 15 (OCTL_SYNC sample_pins)
          then " " +:+
               sample_disasm
                 (read_data sample_rom (set_rx ["s"%char] power_on)) 0xA000
          else "")] /\
    String.length A = 4%nat /\ hex_value A = Some 0xA000 /\
    String.length D = 2%nat /\ hex_value D = Some 0xEA.
Proof.
  apply (debug_transcript sample_pins sample_rom sample_disasm
           (set_rx ["s"%char] power_on) 0xA000 0xEA 15).
  - reflexivity.
  - unfold is_u16. lia.
  - lia.
  - simpl. lia.
Defined.

(** C1 with the polarity of the specification fails: with the MLB and VPB
    pins high (both signals inactive) the third and fourth characters of
    the line are [-], not [M] and [V]. *)
Lemma transcript_MLB_VPB_high :
  pin_high 15 (OCTL_MLB sample_pins) = true /\
  pin_high 15 (OCTL_VPB sample_pins) = true /\
  option_map tx
    (outcome_state
       (debug sample_pins sample_rom sample_disasm 0xA000 0xEA 15
          (set_rx ["s"%char] power_on))) = Some ["rS-- a000 ea nop"] /\
  String.get 2 "rS-- a000 ea nop" <> Some "M"%char /\
  String.get 3 "rS-- a000 ea nop" <> Some "V"%char.
Proof.
  split; [reflexivity|]. split; [reflexivity|].
  split; [vm_compute; reflexivity|].
  split; discriminate.
Qed.

(** The other polarity: with both pins low the line shows [M] and [V]. *)
Lemma transcript_MLB_VPB_low :
  pin_high 3 (OCTL_MLB sample_pins) = false /\
  pin_high 3 (OCTL_VPB sample_pins) = false /\
  option_map tx
    (outcome_state
       (debug sample_pins sample_rom sample_disasm 0xA000 0xEA 3
          (set_rx ["s"%char] power_on))) = Some ["rSMV a000 ea nop"].
Proof. repeat split; vm_compute; reflexivity. Qed.

(** ** The command protocol *)

Lemma cli_fields (s : state) :
  ram (cli s) = ram s /\ debug_step (cli s) = debug_step s /\
  rx (cli s) = rx s /\ tx (cli s) = tx s /\
  ictl_trace (cli s) = ictl_trace s /\ ictl_port (cli s) = ictl_port s /\
  uart (cli s) = uart s.
Proof. repeat split. Qed.

(** The state the command loop starts from differs from the state at
    entry in the interrupt flag, the two receive buffers and the printed
    line only. *)
Lemma hook_start_fields (line : string) (q : list ascii) (s : state) :
  let t := set_rx q (hook_start line s) in
  ictl_port t = ictl_port s /\ ictl_trace t = ictl_trace s /\
  debug_step t = debug_step s /\ ram t = ram s /\ rx t = q /\
  tx t = (if debug_step s then tx s ++ [line] else tx s) /\
  uart t = [] /\ irq_enabled t = true.
Proof.
  unfold hook_start. destruct (debug_step s) eqn:E; cbn; rewrite ?E;
    repeat split.
Qed.



(** C9: while the hook waits with [debug_step] set, a received byte other
    than s, c and r (b included) is taken and dropped: the hook goes on
    exactly as if the bytes [junk] had never been sent, and when nothing
    but such bytes has been received, in Serial's queue ([junk]) or still
    in the USART ([late]), it is still polling, with [debug_step] set, both
    buffers empty, nothing printed beyond the line of its entry, no reset
    run and RAM as it was. *)
Theorem stepping_drops_bytes (P : pins) (rom : list Z)
    (disasm : (Z -> option Z) -> Z -> string)
    (s : state) (addr data octl : Z) (junk rest late : list ascii) :
  debug_step s = true ->
  forallb (fun c => negb (resolves_stepping c)) junk = true ->
  forallb (fun c => negb (resolves_stepping c)) late = true ->
  debug P rom disasm addr data octl (set_rx (junk ++ rest) s) =
    debug P rom disasm addr data octl (set_rx rest s) /\
  debug P rom disasm addr data octl
    (set_uart (junk ++ rest) (set_rx [] s)) =
    debug P rom disasm addr data octl (set_uart rest (set_rx [] s)) /\
  exists s',
    debug P rom disasm addr data octl (set_uart late (set_rx junk s))
      = Spinning s' /\
    debug_step s' = true /\ rx s' = [] /\ uart s' = [] /\
    tx s' = tx s ++ [debug_line P rom disasm s addr data octl] /\
    ictl_trace s' = ictl_trace s /\ ram s' = ram s.
Proof.
  intros Hs Hj Hl.
  pose proof (hook_start_fields
                (debug_line P rom disasm s addr data octl) [] s) as H.
  cbv zeta in H.
  set (s1 := hook_start (debug_line P rom disasm s addr data octl) s) in *.
  assert (debug_step s1 = true) as Hs1
    by (unfold s1, hook_start; rewrite Hs; exact Hs).
  split; [|split].
  - rewrite !debug_set_rx. fold s1. rewrite <- app_assoc.
    rewrite debug_loop_junk; auto.
  - rewrite !debug_set_buffers. fold s1. cbn [app].
    rewrite debug_loop_junk; auto.
  - rewrite debug_set_buffers. fold s1.
    rewrite <- (app_nil_r (junk ++ late)).
    rewrite debug_loop_junk
      by (try rewrite forallb_app, Hj, Hl; auto).
    cbn [debug_loop]. rewrite Hs1. cbn [debug_exit].
    exists (set_rx [] s1). split; [reflexivity|].
    destruct H as (_ & Ht & Hd & Hr & Hq & Htx & Hu & _).
    rewrite Hs in Htx. auto 10.
Qed.

Lemma stepping_drops_bytes_witness :
  debug sample_pins sample_rom sample_disasm 0xA000 0xEA 15
    (set_rx (["x"; "b"; "?"]%char ++ ["s"]%char) power_on) =
    debug sample_pins sample_rom sample_disasm 0xA000 0xEA 15
      (set_rx ["s"]%char power_on) /\
  debug sample_pins sample_rom sample_disasm 0xA000 0xEA 15
    (set_uart (["x"; "b"; "?"]%char ++ ["s"]%char) (set_rx [] power_on)) =
    debug sample_pins sample_rom sample_disasm 0xA000 0xEA 15
      (set_uart ["s"]%char (set_rx [] power_on)) /\
  exists s',
    debug sample_pins sample_rom sample_disasm 0xA000 0xEA 15
      (set_uart ["b"; "y"]%char (set_rx ["x"; "b"; "?"]%char power_on))
      = Spinning s' /\
    debug_step s' = true /\ rx s' = [] /\ uart s' = [] /\
    tx s' = tx power_on ++
      [debug_line sample_pins sample_rom sample_disasm power_on
         0xA000 0xEA 15] /\
    ictl_trace s' = ictl_trace power_on /\ ram s' = ram power_on.
Proof.
  apply (stepping_drops_bytes sample_pins sample_rom sample_disasm
           power_on 0xA000 0xEA 15 ["x"; "b"; "?"]%char ["s"]%char
           ["b"; "y"]%char).
  - reflexivity.
  - reflexivity.
  - reflexivity.
Defined.

(** ** The bus loop and the hook *)

Lemma end_cycle_spinning (P : pins) (o : outcome) :
  is_spinning (end_cycle P o) = is_spinning o.
Proof. destruct o; reflexivity. Qed.

Lemma debug_exit_spinning (o : outcome) :
  is_spinning (debug_exit o) = is_spinning o.
Proof. destruct o; reflexivity. Qed.

Lemma debug_running (P : pins) (rom : list Z)
    (disasm : (Z -> option Z) -> Z -> string)
    (addr data octl : Z) (s : state) :
  debug_step s = false ->
  is_spinning (debug P rom disasm addr data octl s) = false.
Proof.
  intros Hs. rewrite debug_unfold, debug_exit_spinning.
  apply debug_loop_running.
  unfold hook_start. rewrite Hs. exact Hs.
Qed.

Lemma debug_available_iff (s : state) :
  debug_available s = true <-> debug_step s = true \/ uart s <> [].
Proof.
  unfold debug_available, RXC0_set. rewrite orb_true_iff, negb_true_iff.
  rewrite bool_decide_eq_false. reflexivity.
Qed.

Lemma clock_rise_wf (P : pins) (s : state) :
  wf_state s -> wf_state (clock_rise P s).
Proof. intros H. exact H. Qed.

(** C6, as the sketch has it: a cycle enters the hook exactly when
    [debug_available] holds, and that is when [debug_step] is set or the
    USART holds a received byte that Serial has not taken yet (RXC0); what
    waits in Serial's queue has no part in it.  When it does not hold, the
    cycle carries out its transfer and returns: no line is printed, no byte
    is taken from the queue, nothing waits.  When it holds, the outcome of
    the cycle is the outcome of the hook on the state after the transfer.
    A cycle is left polling only with [debug_step] set. *)
Theorem hook_entry (P : pins) (rom : list Z)
    (disasm : (Z -> option Z) -> Z -> string)
    (b : bus_sample) (s : state) :
  wf_rom rom -> wf_state s ->
  (debug_available s = true <-> debug_step s = true \/ uart s <> []) /\
  (forall q, debug_available (set_rx q s) = debug_available s) /\
  (debug_step s = true \/
   is_spinning (loop_body P rom disasm b s) = false) /\
  exists data s1,
    bus_transfer P rom b (clock_rise P s) = Some (data, s1) /\
    debug_step s1 = debug_step s /\ rx s1 = rx s /\ uart s1 = uart s /\
    tx s1 = tx s /\
    if debug_available s
    then loop_body P rom disasm b s =
           end_cycle P
             (debug P rom disasm (read_abus b) data (read_octl b) s1)
    else loop_body P rom disasm b s =
           Returned (clock_fall P (tristate_dbus s1)) /\
         tx (clock_fall P (tristate_dbus s1)) = tx s /\
         rx (clock_fall P (tristate_dbus s1)) = rx s /\
         uart (clock_fall P (tristate_dbus s1)) = [] /\
         debug_step (clock_fall P (tristate_dbus s1)) = false.
Proof.
  intros Hrom Hs.
  destruct (bus_transfer_some P rom b (clock_rise P s) Hrom
              (clock_rise_wf P s Hs))
    as (data & s1 & Hb & Hd & Hr & Ht & Hu).
  change (debug_step (clock_rise P s)) with (debug_step s) in Hd.
  change (rx (clock_rise P s)) with (rx s) in Hr.
  change (tx (clock_rise P s)) with (tx s) in Ht.
  change (uart (clock_rise P s)) with (uart s) in Hu.
  assert (debug_available s1 = debug_available s) as Hav
    by (unfold debug_available, RXC0_set; rewrite Hd, Hu; reflexivity).
  assert (loop_body P rom disasm b s =
          end_cycle P
            (if debug_available s
             then debug P rom disasm (read_abus b) data (read_octl b) s1
             else Returned s1)) as Hbody
    by (unfold loop_body; rewrite Hb, Hav; reflexivity).
  split; [apply debug_available_iff|]. split; [reflexivity|]. split.
  - destruct (debug_step s) eqn:E; [left; reflexivity|right].
    rewrite Hbody, end_cycle_spinning.
    destruct (debug_available s); [|reflexivity].
    apply debug_running. exact Hd.
  - exists data, s1. repeat (split; [assumption|]).
    rewrite Hbody. destruct (debug_available s) eqn:E; [reflexivity|].
    split; [reflexivity|].
    change (tx (clock_fall P (tristate_dbus s1))) with (tx s1).
    change (rx (clock_fall P (tristate_dbus s1))) with (rx s1).
    change (uart (clock_fall P (tristate_dbus s1))) with (uart s1).
    change (debug_step (clock_fall P (tristate_dbus s1))) with (debug_step s1).
    rewrite Ht, Hr, Hd, Hu.
    unfold debug_available, RXC0_set in E. apply orb_false_iff in E.
    destruct E as [E1 E2]. apply negb_false_iff in E2.
    apply bool_decide_eq_true in E2. auto.
Qed.

Lemma hook_entry_witness :
  let s :=
    set_rx ["b"%char]
      (set_debug_step false (setup sample_pins power_on)) in
  let b := mkBus 15 0 0xA0 0 in
  (debug_available s = true <-> debug_step s = true \/ uart s <> []) /\
  (forall q, debug_available (set_rx q s) = debug_available s) /\
  (debug_step s = true \/
   is_spinning (loop_body sample_pins sample_rom sample_disasm b s) = false) /\
  exists data s1,
    bus_transfer sample_pins sample_rom b (clock_rise sample_pins s)
      = Some (data, s1) /\
    debug_step s1 = debug_step s /\ rx s1 = rx s /\ uart s1 = uart s /\
    tx s1 = tx s /\
    if debug_available s
    then loop_body sample_pins sample_rom sample_disasm b s =
           end_cycle sample_pins
             (debug sample_pins sample_rom sample_disasm
                (read_abus b) data (read_octl b) s1)
    else loop_body sample_pins sample_rom sample_disasm b s =
           Returned (clock_fall sample_pins (tristate_dbus s1)) /\
         tx (clock_fall sample_pins (tristate_dbus s1)) = tx s /\
         rx (clock_fall sample_pins (tristate_dbus s1)) = rx s /\
         uart (clock_fall sample_pins (tristate_dbus s1)) = [] /\
         debug_step (clock_fall sample_pins (tristate_dbus s1)) = false.
Proof.
  apply (hook_entry sample_pins sample_rom sample_disasm (mkBus 15 0 0xA0 0)
           (set_rx ["b"%char]
              (set_debug_step false (setup sample_pins power_on)))).
  - reflexivity.
  - reflexivity.
Defined.

(** C6 fails with "pending on the channel" read as received and not yet
    taken by the sketch.  Stepping, with c and b received before the first
    cycle: the first cycle enters the hook, where the receive interrupt
    moves both bytes to Serial's queue; c ends the stepping and the hook
    returns with b still queued.  The second cycle does not enter the hook:
    b stays where it is, [debug_step] stays false and no line is printed. *)
Lemma queued_byte_not_seen :
  let s0 :=
    set_uart ["c"; "b"]%char (cli (setup sample_pins power_on)) in
  let b := mkBus 15 0 0xA0 0 in
  exists s1 s2,
    loop_body sample_pins sample_rom sample_disasm b s0 = Returned s1 /\
    debug_step s1 = false /\ rx s1 = ["b"%char] /\ uart s1 = [] /\
    debug_available s1 = false /\
    loop_body sample_pins sample_rom sample_disasm b s1 = Returned s2 /\
    debug_step s2 = false /\ rx s2 = ["b"%char] /\ tx s2 = tx s1.
Proof.
  cbv zeta. eexists. eexists.
  split; [vm_compute; reflexivity|].
  repeat (split; [vm_compute; reflexivity|]). vm_compute. reflexivity.
Qed.

(** ** Runs *)

(** Stepping with nothing received, the cycle is left polling. *)
Lemma stepping_cycle_waits :
  is_spinning
    (loop_body sample_pins sample_rom sample_disasm (mkBus 15 0 0xA0 0)
       (setup sample_pins power_on)) = true.
Proof. vm_compute. reflexivity. Qed.

(** RAM starts zeroed; a byte written at 0x0010 is read back there and
    the byte next to it is still zero. *)
Lemma run_ram_write_read :
  read_data sample_rom (write_data 0x0010 0x42 power_on) 0x0010 = Some 0x42 /\
  read_data sample_rom (write_data 0x0010 0x42 power_on) 0x0011 = Some 0.
Proof. split; vm_compute; reflexivity. Qed.

(** Offset 0 of the image holds 0xEA; a write to 0xA000 changes nothing. *)
Lemma run_rom_write_read :
  read_data sample_rom power_on 0xA000 = Some 0xEA /\
  read_data sample_rom (write_data 0xA000 0xFF power_on) 0xA000 = Some 0xEA.
Proof. split; vm_compute; reflexivity. Qed.

(** Four fetch cycles at 0xA000 with "ssc" received: three lines are
    printed after the banner, each cycle returns, and the debugger ends up
    running with the queue empty. *)
Lemma run_step_step_continue :
  exists s',
    loop sample_pins sample_rom sample_disasm
      (replicate 4 (mkBus 15 0 0xA0 0))
      (set_rx ["s"; "s"; "c"]%char (setup sample_pins power_on))
      = Returned s' /\
    debug_step s' = false /\ rx s' = [] /\
    tx s' =
      [""; "6502ctl:"; "    s to step"; "    c to continue";
       "    b to break"; "    r to reset";
       "rS-- a000 ea nop"; "rS-- a000 ea nop"; "rS-- a000 ea nop"].
Proof. eexists. split; [vm_compute; reflexivity|]. repeat split. Qed.

(** * Further properties of the sketch *)

(** ** Reads outside the decoded regions *)

(** X1: [read_data] has two branches only.  An address of the gap between RAM
    and ROM takes the ROM branch; the 16-bit subtraction wraps round to
    [a + 0x6000], at or beyond the end of the image, and the read indexes
    past [rom]. *)
Theorem unmapped_read_past_image (rom : list Z) (s : state) (a : Z) :
  wf_rom rom -> 0x1000 <= a < 0xA000 ->
  rom_index a = a + 0x6000 /\
  ROMSIZE <= rom_index a < 65536 /\
  read_data rom s a = None.
Proof.
  intros Hrom Ha.
  assert (rom_index a = a + 0x6000) as E.
  { unfold rom_index, u16.
    replace (a - 0xA000) with (a + 0x6000 + (-1) * 65536) by lia.
    rewrite Z.mod_add by lia. apply Z.mod_small. lia. }
  split; [exact E|]. split; [rewrite E; unfold ROMSIZE; lia|].
  unfold read_data, pgm_read_byte.
  assert (RAMADDR a = false) as -> by (apply RAMADDR_false; lia).
  apply lookup_ge_None. rewrite Hrom, E. unfold ROMSIZE. lia.
Qed.

Lemma unmapped_read_past_image_witness :
  rom_index 0x1000 = 0x1000 + 0x6000 /\
  ROMSIZE <= rom_index 0x1000 < 65536 /\
  read_data sample_rom power_on 0x1000 = None.
Proof.
  apply (unmapped_read_past_image sample_rom power_on 0x1000).
  - reflexivity.
  - lia.
Defined.

(** ** Ports *)

(** X2: [write_ictl m v] bit by bit: a bit of the port selected by the mask
    takes the bit of [v], every other bit keeps its value; the new value is
    an 8-bit one and is the one value added to the trace. *)
Theorem write_ictl_bits (m v n : Z) (s : state) :
  0 <= n < 8 ->
  Z.testbit (ictl_port (write_ictl m v s)) n =
    (if Z.testbit m n then Z.testbit v n else Z.testbit (ictl_port s) n) /\
  0 <= ictl_port (write_ictl m v s) < 256 /\
  ictl_trace (write_ictl m v s) =
    ictl_trace s ++ [ictl_port (write_ictl m v s)].
Proof.
  intros Hn. split; [|split; [|reflexivity]].
  - cbn [write_ictl set_ictl_port ictl_port]. unfold u8.
    change 256 with (2 ^ 8). rewrite Z.mod_pow2_bits_low by lia.
    rewrite Z.lor_spec, !Z.land_spec, Z.lnot_spec by lia.
    destruct (Z.testbit m n), (Z.testbit v n), (Z.testbit (ictl_port s) n);
      reflexivity.
  - cbn [write_ictl set_ictl_port ictl_port]. unfold u8.
    apply Z.mod_pos_bound. lia.
Qed.

Lemma write_ictl_bits_witness :
  Z.testbit (ictl_port (write_ictl 64 255 power_on)) 6 =
    (if Z.testbit 64 6 then Z.testbit 255 6
     else Z.testbit (ictl_port power_on) 6) /\
  0 <= ictl_port (write_ictl 64 255 power_on) < 256 /\
  ictl_trace (write_ictl 64 255 power_on) =
    ictl_trace power_on ++ [ictl_port (write_ictl 64 255 power_on)].
Proof. apply (write_ictl_bits 64 255 6 power_on). lia. Defined.

Lemma land_low_shifted (lo hi : Z) :
  0 <= lo < 256 -> Z.land lo (Z.shiftl hi 8) = 0.
Proof.
  intros Hlo. apply Z.bits_inj'. intros n Hn.
  rewrite Z.land_spec, Z.bits_0.
  destruct (Z.lt_ge_cases n 8) as [H|H].
  - rewrite Z.shiftl_spec_low by lia. apply andb_false_r.
  - assert (Z.testbit lo n = false) as ->; [|reflexivity].
    rewrite <- (Z.mod_small lo (2 ^ 8)) by (change (2 ^ 8) with 256; lia).
    apply Z.mod_pow2_bits_high. lia.
Qed.

(** X3: [read_abus] puts the two address ports together: with 8-bit port
    values the address is [lo + 256 * hi], a 16-bit number whose low and
    high bytes are the two ports again. *)
Theorem read_abus_bytes (b : bus_sample) :
  0 <= ablo_pin b < 256 -> 0 <= abhi_pin b < 256 ->
  read_abus b = ablo_pin b + 256 * abhi_pin b /\
  is_u16 (read_abus b) /\
  Z.land (read_abus b) 255 = ablo_pin b /\
  Z.shiftr (read_abus b) 8 = abhi_pin b.
Proof.
  intros Hlo Hhi.
  assert (read_abus b = ablo_pin b + 256 * abhi_pin b) as E.
  { unfold read_abus, u16.
    rewrite <- Z.lxor_lor by (apply land_low_shifted; exact Hlo).
    rewrite <- Z.add_nocarry_lxor by (apply land_low_shifted; exact Hlo).
    rewrite Z.shiftl_mul_pow2 by lia. change (2 ^ 8) with 256.
    rewrite Z.mod_small by lia. lia. }
  split; [exact E|]. split; [unfold is_u16; lia|]. rewrite E.
  replace (ablo_pin b + 256 * abhi_pin b)
    with (ablo_pin b + abhi_pin b * 256) by lia.
  split.
  - change 255 with (Z.ones 8). rewrite Z.land_ones by lia.
    change (2 ^ 8) with 256. rewrite Z.mod_add by lia.
    apply Z.mod_small. lia.
  - rewrite Z.shiftr_div_pow2 by lia. change (2 ^ 8) with 256.
    rewrite Z.div_add by lia. rewrite Z.div_small by lia. lia.
Qed.

Lemma read_abus_bytes_witness :
  let b := mkBus 15 0x34 0x12 0 in
  read_abus b = ablo_pin b + 256 * abhi_pin b /\
  is_u16 (read_abus b) /\
  Z.land (read_abus b) 255 = ablo_pin b /\
  Z.shiftr (read_abus b) 8 = abhi_pin b.
Proof. apply (read_abus_bytes (mkBus 15 0x34 0x12 0)); simpl; lia. Defined.

(** ** Clock pulses *)

Lemma clock_cycle_other (P : pins) (m' : Z) (n : nat) (s : state) :
  0 <= m' < 256 -> Z.land (ICTL_PHI2 P) m' = 0 ->
  Z.land (ictl_port (clock_cycle P n s)) m' = Z.land (ictl_port s) m'.
Proof.
  intros Hm Hd. revert s. induction n as [|k IH]; intros s; [reflexivity|].
  cbn [clock_cycle]. rewrite IH. unfold clock_fall, clock_rise.
  rewrite !write_ictl_other by assumption. reflexivity.
Qed.

(** X4: [clock_cycle n] gives [n] pulses and nothing else: it adds [2 * n]
    values to the trace of the port, PHI2 high then low [n] times over, with
    the bits of any other pin as they were at the start; and [n + k] cycles
    are [n] cycles followed by [k]. *)
Theorem clock_cycle_pulses (P : pins) (m' : Z) (n k : nat) (s : state) :
  mask8 (ICTL_PHI2 P) -> 0 <= m' < 256 -> Z.land (ICTL_PHI2 P) m' = 0 ->
  (exists new,
     ictl_trace (clock_cycle P n s) = ictl_trace s ++ new /\
     map (fun p => pin_high p (ICTL_PHI2 P)) new = pulses n /\
     Forall (fun p => Z.land p m' = Z.land (ictl_port s) m') new /\
     length new = (2 * n)%nat) /\
  clock_cycle P (n + k) s = clock_cycle P k (clock_cycle P n s).
Proof.
  intros Hphi Hm Hd. split.
  - revert s. induction n as [|j IH]; intros s.
    + exists []. cbn [clock_cycle]. rewrite app_nil_r.
      repeat split. constructor.
    + destruct (IH (clock_fall P (clock_rise P s)))
        as (new & Ht & Hl & Hf & Hn).
      assert (Z.land (ictl_port (clock_rise P s)) m' = Z.land (ictl_port s) m')
        as H1 by (apply write_ictl_other; assumption).
      assert (Z.land (ictl_port (clock_fall P (clock_rise P s))) m'
              = Z.land (ictl_port s) m') as H2
        by (unfold clock_fall at 1; rewrite write_ictl_other; assumption).
      exists (ictl_port (clock_rise P s)
              :: ictl_port (clock_fall P (clock_rise P s)) :: new).
      cbn [clock_cycle]. split; [|split; [|split]].
      * rewrite Ht. unfold clock_fall at 1. rewrite write_ictl_trace.
        unfold clock_rise at 1. rewrite write_ictl_trace.
        rewrite <- !app_assoc. reflexivity.
      * cbn [map pulses]. rewrite Hl.
        unfold clock_fall at 1. rewrite pin_high_write_low by exact Hphi.
        unfold clock_rise at 1. rewrite pin_high_write_high by exact Hphi.
        reflexivity.
      * constructor; [exact H1|]. constructor; [exact H2|].
        rewrite H2 in Hf. exact Hf.
      * cbn [length]. rewrite Hn. lia.
  - revert s. induction n as [|j IH]; intros s; [reflexivity|].
    cbn [Nat.add clock_cycle]. apply IH.
Qed.

Lemma clock_cycle_pulses_witness :
  (exists new,
     ictl_trace (clock_cycle sample_pins 3 power_on)
       = ictl_trace power_on ++ new /\
     map (fun p => pin_high p (ICTL_PHI2 sample_pins)) new = pulses 3 /\
     Forall (fun p => Z.land p 32 = Z.land (ictl_port power_on) 32) new /\
     length new = (2 * 3)%nat) /\
  clock_cycle sample_pins (3 + 2) power_on =
    clock_cycle sample_pins 2 (clock_cycle sample_pins 3 power_on).
Proof.
  apply (clock_cycle_pulses sample_pins 32 3 2 power_on).
  - unfold mask8. simpl. lia.
  - lia.
  - reflexivity.
Defined.

(** ** setup *)

Lemma reset_other (P : pins) (m' : Z) (s : state) :
  0 <= m' < 256 -> Z.land (ICTL_PHI2 P) m' = 0 ->
  Z.land (ICTL_RESB P) m' = 0 ->
  Z.land (ictl_port (reset P s)) m' = Z.land (ictl_port s) m'.
Proof.
  intros Hm Hphi Hres. unfold reset.
  rewrite clock_cycle_other, write_ictl_other by assumption.
  rewrite clock_cycle_other, write_ictl_other by assumption.
  reflexivity.
Qed.

Lemma reset_final_levels (P : pins) (s : state) :
  wf_ictl P ->
  pin_high (ictl_port (reset P s)) (ICTL_RESB P) = true /\
  pin_high (ictl_port (reset P s)) (ICTL_PHI2 P) = false.
Proof.
  intros HP. pose proof HP as (Hphi & Hres & Hd). unfold reset.
  set (s3 := write_ictl (ICTL_RESB P) 255
               (clock_cycle P RESB_0_NCLK (write_ictl (ICTL_RESB P) 0 s))).
  destruct (clock_cycle_trace P HP RESB_1_NCLK s3) as (new & _ & _ & Hr & Hp).
  rewrite Hr, Hp by discriminate.
  unfold s3. rewrite pin_high_write_high by exact Hres. split; reflexivity.
Qed.

Lemma debug_header_fields (t : state) :
  tx (debug_header t) = tx t ++ banner /\
  ictl_port (debug_header t) = ictl_port t /\
  ictl_ddr (debug_header t) = ictl_ddr t /\
  dbus_ddr (debug_header t) = dbus_ddr t /\
  ram (debug_header t) = ram t /\
  debug_step (debug_header t) = debug_step t /\
  rx (debug_header t) = rx t.
Proof.
  split; [|repeat split].
  unfold debug_header, banner. cbn [tx Serial_println].
  rewrite <- !app_assoc. reflexivity.
Qed.

(** The value [setup] writes over the whole port holds each control mask
    and no bit of a mask that none of them meets. *)
Lemma control_value_masks (P : pins) (m : Z) :
  let v := Z.lor (ICTL_RDY P) (Z.lor (ICTL_IRQB P) (Z.lor (ICTL_NMIB P)
             (Z.lor (ICTL_SOB P) (ICTL_BE P)))) in
  (In m (control_masks P) -> Z.land v m = m) /\
  (Forall (fun c => Z.land m c = 0) (control_masks P) -> Z.land v m = 0).
Proof.
  cbv zeta. split.
  - intros Hin. apply Z.bits_inj'. intros n Hn.
    rewrite Z.land_spec, !Z.lor_spec.
    unfold control_masks in Hin. cbn [In] in Hin.
    destruct Hin as [<-|[<-|[<-|[<-|[<-|[]]]]]];
      destruct (Z.testbit (ICTL_RDY P) n), (Z.testbit (ICTL_IRQB P) n),
        (Z.testbit (ICTL_NMIB P) n), (Z.testbit (ICTL_SOB P) n),
        (Z.testbit (ICTL_BE P) n); reflexivity.
  - intros Hall. unfold control_masks in Hall.
    repeat match goal with
           | H : Forall _ (_ :: _) |- _ => inversion H; subst; clear H
           end.
    rewrite !Z.land_lor_distr_l.
    repeat match goal with
           | H : Z.land m ?c = 0 |- _ =>
               rewrite (Z.land_comm c m), H; clear H
           end.
    reflexivity.
Qed.

(** X5: After [setup], from any state: RESB and the five control inputs RDY,
    IRQB, NMIB, SOB and BE are high and PHI2 is low; the ICTL port is an
    output, the data bus is released; the banner has been printed after
    what was there; RAM, [debug_step] and Serial's queue are as they
    were. *)
Theorem setup_postcondition (P : pins) (s : state) :
  wf_pins P ->
  Forall (fun m => pin_high (ictl_port (setup P s)) m = true)
    (ICTL_RESB P :: control_masks P) /\
  pin_high (ictl_port (setup P s)) (ICTL_PHI2 P) = false /\
  ictl_ddr (setup P s) = 255 /\ dbus_ddr (setup P s) = 0 /\
  tx (setup P s) = tx s ++ banner /\
  ram (setup P s) = ram s /\ debug_step (setup P s) = debug_step s /\
  rx (setup P s) = rx s.
Proof.
  intros [HP Hctl]. pose proof HP as (Hphi & Hres & Hd).
  unfold setup.
  set (v := Z.lor (ICTL_RDY P) (Z.lor (ICTL_IRQB P) (Z.lor (ICTL_NMIB P)
              (Z.lor (ICTL_SOB P) (ICTL_BE P))))).
  set (s3 := write_ictl 255 v (setup_ictl (setup_dbus s))).
  assert (ictl_ddr s3 = 255 /\ dbus_ddr s3 = 0 /\ tx s3 = tx s /\
          ram s3 = ram s /\ debug_step s3 = debug_step s /\ rx s3 = rx s)
    as (E1 & E2 & E3 & E4 & E5 & E6) by (repeat split).
  assert (forall m, 0 <= m < 256 -> Z.land (ictl_port s3) m = Z.land v m)
    as Hport.
  { intros m Hm. unfold s3.
    rewrite <- (land_mask8 m) at 1 by exact Hm.
    rewrite Z.land_assoc, write_ictl_same by lia.
    rewrite <- Z.land_assoc, land_mask8 by exact Hm. reflexivity. }
  pose proof (reset_frame P s3)
    as (F1 & F2 & F3 & F4 & _ & _ & F7 & F8 & _).
  pose proof (reset_final_levels P s3 HP) as [Rhigh Plow].
  assert (forall m, In m (control_masks P) ->
            pin_high (ictl_port (reset P s3)) m = true) as Hhigh.
  { intros m Hin. rewrite Forall_forall in Hctl.
    destruct (Hctl m) as ((Hm0 & Hm1) & Hp & Hr);
      [apply list_elem_of_In; exact Hin|].
    unfold pin_high. rewrite reset_other, Hport by (assumption || lia).
    pose proof (control_value_masks P m) as Hcv. cbv zeta in Hcv.
    destruct Hcv as [Hv _]. fold v in Hv. rewrite (Hv Hin).
    apply negb_true_iff, Z.eqb_neq. lia. }
  destruct (debug_header_fields (reset P s3))
    as (D1 & D2 & D3 & D4 & D5 & D6 & D7).
  rewrite D1, D2, D3, D4, D5, D6, D7, F1, F2, F3, F4, F7, F8.
  rewrite E1, E2, E3, E4, E5, E6.
  split; [|repeat split; assumption].
  constructor; [exact Rhigh|].
  apply Forall_forall. intros m Hin. apply Hhigh.
  apply list_elem_of_In. exact Hin.
Qed.

Lemma setup_postcondition_witness :
  Forall (fun m => pin_high (ictl_port (setup sample_pins power_on)) m = true)
    (ICTL_RESB sample_pins :: control_masks sample_pins) /\
  pin_high (ictl_port (setup sample_pins power_on)) (ICTL_PHI2 sample_pins)
    = false /\
  ictl_ddr (setup sample_pins power_on) = 255 /\
  dbus_ddr (setup sample_pins power_on) = 0 /\
  tx (setup sample_pins power_on) = tx power_on ++ banner /\
  ram (setup sample_pins power_on) = ram power_on /\
  debug_step (setup sample_pins power_on) = debug_step power_on /\
  rx (setup sample_pins power_on) = rx power_on.
Proof.
  apply (setup_postcondition sample_pins power_on).
  unfold wf_pins, wf_ictl, mask8, control_masks. simpl.
  split; [repeat split; lia|].
  repeat constructor; lia.
Defined.

(** ** The hook, whatever it receives *)

(** What any run of the command loop keeps: it never indexes an array; it
    leaves RAM, the data bus, the printed lines and the interrupt flag
    alone; and where it is left polling, [debug_step] is set, the queue is
    empty and the ICTL port has not been written. *)
Lemma debug_loop_cases (P : pins) (input : list ascii) (s : state) :
  match debug_loop P input s with
  | Returned s' => irq_enabled s' = irq_enabled s /\ hook_frame s s'
  | Spinning s' =>
      debug_step s' = true /\ rx s' = [] /\
      ictl_port s' = ictl_port s /\ ictl_trace s' = ictl_trace s /\
      irq_enabled s' = irq_enabled s /\ hook_frame s s'
  | OutOfBounds => False
  end.
Proof.
  revert s. induction input as [|c rest IH]; intros s; cbn [debug_loop].
  - destruct (debug_step s) eqn:E; unfold hook_frame; cbn; auto 10.
  - specialize (IH (set_rx rest s)).
    assert (irq_enabled (reset P (set_rx rest s)) = irq_enabled s /\
            hook_frame s (reset P (set_rx rest s))) as Hreset.
    { destruct (reset_frame P (set_rx rest s))
        as (F1 & _ & F3 & F4 & F5 & F6 & _ & F8 & _).
      unfold hook_frame. auto 10. }
    cbn [debug_step set_rx].
    destruct (Ascii.eqb c "s");
      [destruct (debug_step s); [unfold hook_frame; cbn; auto 10|exact IH]|].
    destruct (Ascii.eqb c "c");
      [destruct (debug_step s); [unfold hook_frame; cbn; auto 10|exact IH]|].
    destruct (Ascii.eqb c "b");
      [destruct (debug_step s); cbn [negb];
         [exact IH|unfold hook_frame; cbn; auto 10]|].
    destruct (Ascii.eqb c "r"); [exact Hreset|exact IH].
Qed.

(** The same for the hook: it differs from its loop by the line it may
    print at entry and by the interrupt flag. *)
Lemma debug_cases (P : pins) (rom : list Z)
    (disasm : (Z -> option Z) -> Z -> string)
    (addr data octl : Z) (s : state) :
  match debug P rom disasm addr data octl s with
  | Returned s' =>
      irq_enabled s' = false /\ ram s' = ram s /\
      dbus_ddr s' = dbus_ddr s /\ dbus_port s' = dbus_port s
  | Spinning s' =>
      debug_step s' = true /\ rx s' = [] /\ irq_enabled s' = true /\
      ictl_port s' = ictl_port s /\ ictl_trace s' = ictl_trace s /\
      ram s' = ram s /\ dbus_ddr s' = dbus_ddr s /\
      dbus_port s' = dbus_port s
  | OutOfBounds => False
  end.
Proof.
  rewrite debug_unfold.
  set (s1 := hook_start (debug_line P rom disasm s addr data octl) s).
  assert (irq_enabled s1 = true /\ ram s1 = ram s /\
          dbus_ddr s1 = dbus_ddr s /\ dbus_port s1 = dbus_port s /\
          ictl_port s1 = ictl_port s /\ ictl_trace s1 = ictl_trace s)
    as (E1 & E2 & E3 & E4 & E5 & E6)
    by (unfold s1, hook_start; destruct (debug_step s); repeat split).
  pose proof (debug_loop_cases P (rx s ++ uart s) s1) as H.
  destruct (debug_loop P (rx s ++ uart s) s1) as [s'|s'|];
    cbn [debug_exit].
  - destruct H as (_ & Hr & _ & Hd & Hp & _).
    destruct (cli_fields s') as (C1 & _).
    change (dbus_ddr (cli s')) with (dbus_ddr s').
    change (dbus_port (cli s')) with (dbus_port s').
    rewrite C1, Hr, Hd, Hp. auto.
  - destruct H as (Hs & Hq & Hip & Hit & Hi & Hr & _ & Hd & Hp & _).
    rewrite Hs, Hq, Hip, Hit, Hi, Hr, Hd, Hp. auto 10.
  - exact H.
Qed.

(** X6: The interrupt discipline of the hook: it returns with interrupts
    disabled, and where it is left polling they are enabled and
    [debug_step] is set; its own statements index no array. *)
Theorem debug_interrupts (P : pins) (rom : list Z)
    (disasm : (Z -> option Z) -> Z -> string)
    (addr data octl : Z) (s : state) :
  match debug P rom disasm addr data octl s with
  | Returned s' => irq_enabled s' = false
  | Spinning s' => irq_enabled s' = true /\ debug_step s' = true
  | OutOfBounds => False
  end.
Proof.
  pose proof (debug_cases P rom disasm addr data octl s) as H.
  destruct (debug P rom disasm addr data octl s); [apply H| |exact H].
  destruct H as (Hs & _ & Hi & _). auto.
Qed.

(** X7: While running ([debug_step] false) the hook acts on b and r only: it
    takes every other byte that is waiting, s and c included, in Serial's
    queue ([input]) and in the USART ([late]), and returns with both empty,
    still running, having printed nothing and written nothing to the ICTL
    port. *)
Theorem running_drains_bytes (P : pins) (rom : list Z)
    (disasm : (Z -> option Z) -> Z -> string)
    (addr data octl : Z) (input late : list ascii) (s : state) :
  debug_step s = false ->
  forallb (fun c => negb (resolves_running c)) (input ++ late) = true ->
  exists s',
    debug P rom disasm addr data octl (set_uart late (set_rx input s))
      = Returned s' /\
    debug_step s' = false /\ rx s' = [] /\ uart s' = [] /\
    tx s' = tx s /\ ictl_trace s' = ictl_trace s /\ ram s' = ram s.
Proof.
  intros Hs Hin. rewrite debug_set_buffers.
  pose proof (hook_start_fields
                (debug_line P rom disasm s addr data octl) [] s) as H.
  cbv zeta in H. rewrite Hs in H.
  rewrite <- (debug_loop_rx P (input ++ late) []).
  set (s1 := set_rx []
               (hook_start (debug_line P rom disasm s addr data octl) s))
    in *.
  clearbody s1. destruct H as (_ & Hi1 & Hd1 & Hr1 & _ & Ht1 & Hu1 & _).
  revert Hin. generalize (input ++ late). clear input late.
  intros input Hin.
  assert (forall t, debug_step t = false ->
            exists t', debug_loop P input t = Returned t' /\
              debug_step t' = false /\ rx t' = [] /\ tx t' = tx t /\
              ictl_trace t' = ictl_trace t /\ ram t' = ram t /\
              uart t' = uart t) as Hloop.
  { induction input as [|c rest IH]; intros t Ht.
    - cbn [debug_loop]. rewrite Ht. eexists. split; [reflexivity|].
      repeat split. exact Ht.
    - cbn [forallb] in Hin. apply andb_true_iff in Hin.
      destruct Hin as [Hc Hrest]. unfold resolves_running in Hc.
      apply negb_true_iff, orb_false_iff in Hc. destruct Hc as [Eb Er].
      cbn [debug_loop]. rewrite Eb, Er. cbn [debug_step set_rx].
      rewrite Ht.
      destruct (IH Hrest (set_rx rest t) Ht) as (t' & Hl & Hrestt).
      exists t'. split; [|exact Hrestt].
      destruct (Ascii.eqb c "s"); [exact Hl|].
      destruct (Ascii.eqb c "c"); exact Hl. }
  destruct (Hloop s1 Hd1) as (t' & Hl & Hd & Hq & Ht & Hi & Hr & Hu).
  rewrite Hl. exists (cli t'). split; [reflexivity|].
  destruct (cli_fields t') as (C1 & C2 & C3 & C4 & C5 & _ & C7).
  rewrite C1, C2, C3, C4, C5, C7, Hd, Hq, Ht, Hi, Hr, Hu.
  rewrite Ht1, Hi1, Hr1, Hu1. auto 10.
Qed.

Lemma running_drains_bytes_witness :
  exists s',
    debug sample_pins sample_rom sample_disasm 0xA000 0xEA 15
      (set_uart ["x"; "s"]%char
         (set_rx ["s"; "c"; "x"]%char (set_debug_step false power_on)))
      = Returned s' /\
    debug_step s' = false /\ rx s' = [] /\ uart s' = [] /\
    tx s' = tx (set_debug_step false power_on) /\
    ictl_trace s' = ictl_trace (set_debug_step false power_on) /\
    ram s' = ram (set_debug_step false power_on).
Proof.
  apply (running_drains_bytes sample_pins sample_rom sample_disasm
           0xA000 0xEA 15 ["s"; "c"; "x"]%char ["x"; "s"]%char
           (set_debug_step false power_on)).
  - reflexivity.
  - reflexivity.
Defined.

(** ** One cycle of the bus loop *)

Lemma read_data_ram_ext (rom : list Z) (s t : state) (a : Z) :
  ram s = ram t -> read_data rom s a = read_data rom t a.
Proof. intros E. unfold read_data. rewrite E. reflexivity. Qed.

Lemma write_data_ram_ext (a v : Z) (s t : state) :
  ram s = ram t -> ram (write_data a v s) = ram (write_data a v t).
Proof.
  intros E. unfold write_data.
  destruct (RAMADDR a); cbn [ram set_ram]; rewrite E; reflexivity.
Qed.

(** The transfer of a cycle, case by case. *)
Lemma bus_transfer_cases (P : pins) (rom : list Z) (b : bus_sample)
    (s : state) :
  wf_rom rom -> wf_state s ->
  exists data s1,
    bus_transfer P rom b s = Some (data, s1) /\
    (debug_step s1 = debug_step s /\ rx s1 = rx s /\ tx s1 = tx s /\
     ictl_port s1 = ictl_port s /\ ictl_trace s1 = ictl_trace s /\
     irq_enabled s1 = irq_enabled s /\ uart s1 = uart s) /\
    ram s1 =
      (if pin_high (read_octl b) (OCTL_RWB P) then ram s
       else ram (write_data (read_abus b) (dbus_pin b) s)) /\
    (if pin_high (read_octl b) (OCTL_RWB P) &&
        (RAMADDR (read_abus b) || ROMADDR (read_abus b))
     then dbus_ddr s1 = 255 /\ dbus_port s1 = data /\
          read_data rom s (read_abus b) = Some data
     else dbus_ddr s1 = 0 /\ data = dbus_pin b).
Proof.
  intros Hrom Hs. unfold bus_transfer.
  destruct (pin_high (read_octl b) (OCTL_RWB P)); cbn [andb].
  - destruct (RAMADDR (read_abus b) || ROMADDR (read_abus b)) eqn:E.
    + destruct (read_data_decoded rom s (read_abus b) Hrom Hs
                  (read_abus_u16 b) E) as [v Hv].
      rewrite Hv. eexists _, _. split; [reflexivity|].
      repeat split.
    + eexists _, _. split; [reflexivity|]. repeat split.
  - cbn [read_dbus]. eexists _, _. split; [reflexivity|].
    unfold write_data. destruct (RAMADDR (read_abus b)); repeat split.
Qed.

(** A cycle is its clock edge, its transfer, the hook when it is due, and
    the end of the cycle. *)
Lemma loop_body_cases (P : pins) (rom : list Z)
    (disasm : (Z -> option Z) -> Z -> string)
    (b : bus_sample) (s : state) :
  wf_rom rom -> wf_state s ->
  exists data s1,
    bus_transfer P rom b (clock_rise P s) = Some (data, s1) /\
    loop_body P rom disasm b s =
      end_cycle P
        (if debug_available s
         then debug P rom disasm (read_abus b) data (read_octl b) s1
         else Returned s1).
Proof.
  intros Hrom Hs.
  destruct (bus_transfer_cases P rom b (clock_rise P s) Hrom Hs)
    as (data & s1 & Hb & (Hd & _ & _ & _ & _ & _ & Hu) & _).
  exists data, s1. split; [exact Hb|].
  unfold loop_body. rewrite Hb.
  assert (debug_available s1 = debug_available s) as ->
    by (unfold debug_available, RXC0_set; rewrite Hd, Hu; reflexivity).
  reflexivity.
Qed.

(** What a cycle does to RAM, however it ends. *)
Lemma loop_body_ram (P : pins) (rom : list Z)
    (disasm : (Z -> option Z) -> Z -> string)
    (b : bus_sample) (s : state) :
  wf_rom rom -> wf_state s ->
  exists s',
    outcome_state (loop_body P rom disasm b s) = Some s' /\
    ram s' =
      (if pin_high (read_octl b) (OCTL_RWB P) then ram s
       else ram (write_data (read_abus b) (dbus_pin b) s)).
Proof.
  intros Hrom Hs.
  destruct (bus_transfer_cases P rom b (clock_rise P s) Hrom Hs)
    as (data & s1 & Hb & _ & Hram & _).
  destruct (loop_body_cases P rom disasm b s Hrom Hs)
    as (data' & s1' & Hb' & ->).
  rewrite Hb in Hb'. injection Hb' as <- <-.
  change (ram (clock_rise P s)) with (ram s) in Hram.
  rewrite (write_data_ram_ext (read_abus b) (dbus_pin b) (clock_rise P s) s)
    in Hram by reflexivity.
  destruct (debug_available s).
  - pose proof (debug_cases P rom disasm (read_abus b) data (read_octl b) s1)
      as H.
    destruct (debug P rom disasm (read_abus b) data (read_octl b) s1)
      as [s2|s2|]; cbn [end_cycle outcome_state].
    + eexists. split; [reflexivity|].
      change (ram (clock_fall P (tristate_dbus s2))) with (ram s2).
      destruct H as (_ & -> & _). exact Hram.
    + eexists. split; [reflexivity|].
      destruct H as (_ & _ & _ & _ & _ & -> & _). exact Hram.
    + destruct H.
  - cbn [end_cycle outcome_state]. eexists. split; [reflexivity|].
    exact Hram.
Qed.

(** X8: A cycle changes RAM in one case only: a write cycle (RWB low) to an
    address below 0x1000 stores the byte on the data bus at that address.
    Read cycles, writes elsewhere, and the hook, whatever it receives, leave
    RAM as it was, in a cycle that returns and in one that is left polling.
    Nothing is said here of the reads the disassembler makes. *)
Theorem cycle_ram (P : pins) (rom : list Z)
    (disasm : (Z -> option Z) -> Z -> string)
    (b : bus_sample) (s : state) :
  wf_rom rom -> wf_state s ->
  match loop_body P rom disasm b s with
  | Returned s' | Spinning s' =>
      ram s' =
        (if negb (pin_high (read_octl b) (OCTL_RWB P))
            && RAMADDR (read_abus b)
         then <[Z.to_nat (read_abus b) := dbus_pin b]> (ram s)
         else ram s) /\
      wf_state s'
  | OutOfBounds => True
  end.
Proof.
  intros Hrom Hs.
  destruct (loop_body_ram P rom disasm b s Hrom Hs) as (s' & Ho & Hram).
  assert (ram s' =
      (if negb (pin_high (read_octl b) (OCTL_RWB P))
          && RAMADDR (read_abus b)
       then <[Z.to_nat (read_abus b) := dbus_pin b]> (ram s)
       else ram s) /\
    wf_state s') as Hgoal; cycle 1.
  { destruct (loop_body P rom disasm b s) as [t|t|];
      cbn [outcome_state] in Ho; [| |exact I]; injection Ho as ->;
      exact Hgoal. }
  clear Ho.
  assert (ram s' =
    (if negb (pin_high (read_octl b) (OCTL_RWB P)) && RAMADDR (read_abus b)
     then <[Z.to_nat (read_abus b) := dbus_pin b]> (ram s)
     else ram s)) as E.
  { rewrite Hram.
    destruct (pin_high (read_octl b) (OCTL_RWB P)); [reflexivity|].
    cbn [negb andb]. unfold write_data.
    destruct (RAMADDR (read_abus b)) eqn:E; [|reflexivity].
    apply RAMADDR_true in E. pose proof (read_abus_u16 b) as [H0 _].
    cbn [ram set_ram]. rewrite land_RAMMASK by lia. reflexivity. }
  split; [exact E|].
  unfold wf_state. rewrite E.
  destruct (negb (pin_high (read_octl b) (OCTL_RWB P))
            && RAMADDR (read_abus b)); [rewrite length_insert|]; exact Hs.
Qed.

Lemma cycle_ram_witness :
  match
    loop_body sample_pins sample_rom sample_disasm (mkBus 0 0x10 0 0x42)
      power_on
  with
  | Returned s' | Spinning s' =>
      ram s' =
        (if negb (pin_high (read_octl (mkBus 0 0x10 0 0x42))
                    (OCTL_RWB sample_pins))
            && RAMADDR (read_abus (mkBus 0 0x10 0 0x42))
         then <[Z.to_nat (read_abus (mkBus 0 0x10 0 0x42))
                 := dbus_pin (mkBus 0 0x10 0 0x42)]> (ram power_on)
         else ram power_on) /\
      wf_state s'
  | OutOfBounds => True
  end.
Proof.
  apply (cycle_ram sample_pins sample_rom sample_disasm
           (mkBus 0 0x10 0 0x42) power_on).
  - reflexivity.
  - reflexivity.
Defined.

(** X9: A cycle that returns has released the data bus and left PHI2 low; if
    the hook ran, interrupts are disabled, and if it did not, the interrupt
    flag is as it was. *)
Theorem cycle_returns_released (P : pins) (rom : list Z)
    (disasm : (Z -> option Z) -> Z -> string)
    (b : bus_sample) (s : state) :
  wf_ictl P -> wf_rom rom -> wf_state s ->
  match loop_body P rom disasm b s with
  | Returned s' =>
      dbus_ddr s' = 0 /\ pin_high (ictl_port s') (ICTL_PHI2 P) = false /\
      irq_enabled s' = (if debug_available s then false else irq_enabled s)
  | Spinning _ | OutOfBounds => True
  end.
Proof.
  intros (Hphi & _ & _) Hrom Hs.
  destruct (bus_transfer_cases P rom b (clock_rise P s) Hrom Hs)
    as (data & s1 & Hb & (_ & _ & _ & _ & _ & Hirq & _) & _).
  destruct (loop_body_cases P rom disasm b s Hrom Hs)
    as (data' & s1' & Hb' & ->).
  rewrite Hb in Hb'. injection Hb' as <- <-.
  assert (forall t, dbus_ddr (clock_fall P (tristate_dbus t)) = 0 /\
            pin_high (ictl_port (clock_fall P (tristate_dbus t)))
              (ICTL_PHI2 P) = false /\
            irq_enabled (clock_fall P (tristate_dbus t)) = irq_enabled t)
    as Hend.
  { intros t. split; [reflexivity|]. split; [|reflexivity].
    unfold clock_fall. apply pin_high_write_low. exact Hphi. }
  destruct (debug_available s).
  - pose proof (debug_cases P rom disasm (read_abus b) data (read_octl b) s1)
      as H.
    destruct (debug P rom disasm (read_abus b) data (read_octl b) s1)
      as [s2|s2|]; cbn [end_cycle]; [|exact I|exact I].
    destruct (Hend s2) as (E1 & E2 & E3). destruct H as (Hi & _).
    rewrite E1, E2, E3, Hi. auto.
  - cbn [end_cycle]. destruct (Hend s1) as (E1 & E2 & E3).
    rewrite E1, E2, E3, Hirq. auto.
Qed.

Lemma cycle_returns_released_witness :
  match
    loop_body sample_pins sample_rom sample_disasm (mkBus 15 0 0xA0 0)
      (set_rx ["s"%char] power_on)
  with
  | Returned s' =>
      dbus_ddr s' = 0 /\
      pin_high (ictl_port s') (ICTL_PHI2 sample_pins) = false /\
      irq_enabled s' =
        (if debug_available (set_rx ["s"%char] power_on) then false
         else irq_enabled (set_rx ["s"%char] power_on))
  | Spinning _ | OutOfBounds => True
  end.
Proof.
  apply (cycle_returns_released sample_pins sample_rom sample_disasm
           (mkBus 15 0 0xA0 0) (set_rx ["s"%char] power_on)).
  - unfold wf_ictl, mask8. simpl. repeat split; lia.
  - reflexivity.
  - reflexivity.
Defined.

(** X10: Where a cycle is left polling, the debugger is stepping, interrupts are
    enabled, and the bus stands as the cycle set it up: PHI2 is high, its
    rising edge being the one write this cycle made to the ICTL port, and
    on a read of a RAM or ROM address the data bus is driven with the byte
    [read_data] gave, and is released otherwise. *)
Theorem cycle_waits_clock_high (P : pins) (rom : list Z)
    (disasm : (Z -> option Z) -> Z -> string)
    (b : bus_sample) (s : state) :
  wf_ictl P -> wf_rom rom -> wf_state s ->
  match loop_body P rom disasm b s with
  | Spinning s' =>
      debug_step s' = true /\ irq_enabled s' = true /\
      pin_high (ictl_port s') (ICTL_PHI2 P) = true /\
      ictl_trace s' = ictl_trace s ++ [ictl_port s'] /\
      if pin_high (read_octl b) (OCTL_RWB P) &&
         (RAMADDR (read_abus b) || ROMADDR (read_abus b))
      then dbus_ddr s' = 255 /\
           read_data rom s (read_abus b) = Some (dbus_port s')
      else dbus_ddr s' = 0
  | _ => True
  end.
Proof.
  intros (Hphi & _ & _) Hrom Hs.
  destruct (bus_transfer_cases P rom b (clock_rise P s) Hrom Hs)
    as (data & s1 & Hb & (_ & _ & _ & Hp & Ht & _) & _ & Hbus).
  destruct (loop_body_cases P rom disasm b s Hrom Hs)
    as (data' & s1' & Hb' & ->).
  rewrite Hb in Hb'. injection Hb' as <- <-.
  destruct (debug_available s); [|exact I].
  pose proof (debug_cases P rom disasm (read_abus b) data (read_octl b) s1)
    as H.
  destruct (debug P rom disasm (read_abus b) data (read_octl b) s1)
    as [s2|s2|]; cbn [end_cycle]; [exact I| |exact I].
  destruct H as (Hstep & _ & Hirq & Hp2 & Ht2 & _ & Hddr & Hport).
  split; [exact Hstep|]. split; [exact Hirq|].
  rewrite Hp2, Ht2, Hp, Ht, Hddr, Hport.
  split; [apply pin_high_write_high; exact Hphi|].
  split; [apply write_ictl_trace|].
  destruct (pin_high (read_octl b) (OCTL_RWB P) &&
            (RAMADDR (read_abus b) || ROMADDR (read_abus b))).
  - destruct Hbus as (Hd & Hv & Hread). split; [exact Hd|].
    rewrite Hv. rewrite <- Hread. apply read_data_ram_ext. reflexivity.
  - apply Hbus.
Qed.

Lemma cycle_waits_clock_high_witness :
  match
    loop_body sample_pins sample_rom sample_disasm (mkBus 15 0 0xA0 0)
      power_on
  with
  | Spinning s' =>
      debug_step s' = true /\ irq_enabled s' = true /\
      pin_high (ictl_port s') (ICTL_PHI2 sample_pins) = true /\
      ictl_trace s' = ictl_trace power_on ++ [ictl_port s'] /\
      if pin_high (read_octl (mkBus 15 0 0xA0 0)) (OCTL_RWB sample_pins) &&
         (RAMADDR (read_abus (mkBus 15 0 0xA0 0))
          || ROMADDR (read_abus (mkBus 15 0 0xA0 0)))
      then dbus_ddr s' = 255 /\
           read_data sample_rom power_on (read_abus (mkBus 15 0 0xA0 0))
             = Some (dbus_port s')
      else dbus_ddr s' = 0
  | _ => True
  end.
Proof.
  apply (cycle_waits_clock_high sample_pins sample_rom sample_disasm
           (mkBus 15 0 0xA0 0) power_on).
  - unfold wf_ictl, mask8. simpl. repeat split; lia.
  - reflexivity.
  - reflexivity.
Defined.

(** X11: The transcript of a cycle: while stepping every cycle prints exactly
    one line, the line of its own address, datum and control lines; while
    running a cycle prints nothing, whatever is received.  The datum is the
    byte [read_data] gave on a read of a RAM or ROM address, and the byte
    found on the data bus otherwise. *)
Theorem cycle_transcript (P : pins) (rom : list Z)
    (disasm : (Z -> option Z) -> Z -> string)
    (b : bus_sample) (s : state) :
  wf_rom rom -> wf_state s ->
  exists s' data s1,
    bus_transfer P rom b (clock_rise P s) = Some (data, s1) /\
    outcome_state (loop_body P rom disasm b s) = Some s' /\
    tx s' =
      (if debug_step s
       then tx s ++
            [debug_line P rom disasm s1 (read_abus b) data (read_octl b)]
       else tx s) /\
    if pin_high (read_octl b) (OCTL_RWB P) &&
       (RAMADDR (read_abus b) || ROMADDR (read_abus b))
    then read_data rom s (read_abus b) = Some data
    else data = dbus_pin b.
Proof.
  intros Hrom Hs.
  destruct (bus_transfer_cases P rom b (clock_rise P s) Hrom Hs)
    as (data & s1 & Hb & (Hd & _ & Ht & _) & _ & Hbus).
  change (debug_step (clock_rise P s)) with (debug_step s) in Hd.
  change (tx (clock_rise P s)) with (tx s) in Ht.
  destruct (loop_body_cases P rom disasm b s Hrom Hs)
    as (data' & s1' & Hb' & Hbody).
  rewrite Hb in Hb'. injection Hb' as <- <-.
  assert (if pin_high (read_octl b) (OCTL_RWB P) &&
             (RAMADDR (read_abus b) || ROMADDR (read_abus b))
          then read_data rom s (read_abus b) = Some data
          else data = dbus_pin b) as Hdatum.
  { destruct (pin_high (read_octl b) (OCTL_RWB P) &&
              (RAMADDR (read_abus b) || ROMADDR (read_abus b)));
      [|apply Hbus].
    destruct Hbus as (_ & _ & Hread). rewrite <- Hread.
    apply read_data_ram_ext. reflexivity. }
  rewrite Hbody. destruct (debug_available s) eqn:Eav.
  - destruct (debug_tx P rom disasm (read_abus b) data (read_octl b) s1)
      as (s2 & Ho & Htx).
    rewrite Hd, Ht in Htx.
    destruct (debug P rom disasm (read_abus b) data (read_octl b) s1)
      as [t|t|]; cbn [outcome_state] in Ho; [| |discriminate];
      injection Ho as ->; cbn [end_cycle outcome_state].
    + exists (clock_fall P (tristate_dbus s2)), data, s1.
      split; [exact Hb|]. split; [reflexivity|]. split; [exact Htx|].
      exact Hdatum.
    + exists s2, data, s1. split; [exact Hb|]. split; [reflexivity|].
      split; [exact Htx|]. exact Hdatum.
  - unfold debug_available in Eav. apply orb_false_iff in Eav.
    destruct Eav as [Estep _]. rewrite Estep. cbn [end_cycle outcome_state].
    exists (clock_fall P (tristate_dbus s1)), data, s1.
    split; [exact Hb|]. split; [reflexivity|]. split; [exact Ht|].
    exact Hdatum.
Qed.

Lemma cycle_transcript_witness :
  let b := mkBus 15 0 0xA0 0 in
  exists s' data s1,
    bus_transfer sample_pins sample_rom b (clock_rise sample_pins power_on)
      = Some (data, s1) /\
    outcome_state (loop_body sample_pins sample_rom sample_disasm b power_on)
      = Some s' /\
    tx s' =
      (if debug_step power_on
       then tx power_on ++
            [debug_line sample_pins sample_rom sample_disasm s1
               (read_abus b) data (read_octl b)]
       else tx power_on) /\
    if pin_high (read_octl b) (OCTL_RWB sample_pins) &&
       (RAMADDR (read_abus b) || ROMADDR (read_abus b))
    then read_data sample_rom power_on (read_abus b) = Some data
    else data = dbus_pin b.
Proof.
  apply (cycle_transcript sample_pins sample_rom sample_disasm
           (mkBus 15 0 0xA0 0) power_on).
  - reflexivity.
  - reflexivity.
Defined.

(** ** The loop *)

(** X12: A cycle in which the hook does not call the disassembler (the
    debugger is running when the cycle starts, or SYNC is low) indexes
    [ram] and [rom] inside their bounds: it returns or is left polling,
    and RAM keeps its size. *)
Theorem cycle_in_bounds (P : pins) (rom : list Z)
    (disasm : (Z -> option Z) -> Z -> string)
    (b : bus_sample) (s : state) :
  wf_rom rom -> wf_state s ->
  debug_step s && pin_high (read_octl b) (OCTL_SYNC P) = false ->
  exists s',
    outcome_state (loop_body P rom disasm b s) = Some s' /\ wf_state s'.
Proof.
  intros Hrom Hs _.
  destruct (loop_body_ram P rom disasm b s Hrom Hs) as (s' & Ho & Hram).
  exists s'. split; [exact Ho|].
  unfold wf_state. rewrite Hram.
  destruct (pin_high (read_octl b) (OCTL_RWB P)); [exact Hs|].
  apply write_data_wf. exact Hs.
Qed.

Lemma cycle_in_bounds_witness :
  exists s',
    outcome_state
      (loop_body sample_pins sample_rom sample_disasm (mkBus 1 0 0x20 0x55)
         (set_rx ["s"%char] power_on)) = Some s' /\
    wf_state s'.
Proof.
  apply (cycle_in_bounds sample_pins sample_rom sample_disasm
           (mkBus 1 0 0x20 0x55) (set_rx ["s"%char] power_on)).
  - reflexivity.
  - reflexivity.
  - reflexivity.
Defined.

(** A cycle of a running debugger with nothing received. *)
Lemma loop_body_running (P : pins) (rom : list Z)
    (disasm : (Z -> option Z) -> Z -> string)
    (b : bus_sample) (s : state) :
  wf_rom rom -> wf_state s -> debug_step s = false -> uart s = [] ->
  exists data s1,
    bus_transfer P rom b (clock_rise P s) = Some (data, s1) /\
    loop_body P rom disasm b s = Returned (clock_fall P (tristate_dbus s1)).
Proof.
  intros Hrom Hs Hstep Hrx.
  destruct (loop_body_cases P rom disasm b s Hrom Hs)
    as (data & s1 & Hb & Hbody).
  exists data, s1. split; [exact Hb|]. rewrite Hbody.
  unfold debug_available, RXC0_set. rewrite Hstep, Hrx. reflexivity.
Qed.

(** X13: Free running: with [debug_step] false and nothing in the USART, any
    number of cycles run through without waiting and without printing,
    whatever waits in Serial's queue; each cycle writes the ICTL port twice,
    its rising and its falling edge; the debugger's state, the queue and
    the interrupt flag are as they were. *)
Theorem free_running (P : pins) (rom : list Z)
    (disasm : (Z -> option Z) -> Z -> string)
    (bs : list bus_sample) (s : state) :
  wf_rom rom -> wf_state s -> debug_step s = false -> uart s = [] ->
  exists s',
    cycles P rom disasm bs s = Returned s' /\
    debug_step s' = false /\ rx s' = rx s /\ uart s' = [] /\
    tx s' = tx s /\ irq_enabled s' = irq_enabled s /\
    length (ictl_trace s') = (length (ictl_trace s) + 2 * length bs)%nat.
Proof.
  intros Hrom. revert s.
  induction bs as [|b bs IH]; intros s Hs Hstep Hu; cbn [cycles].
  - exists s. split; [reflexivity|]. repeat split; try assumption.
    cbn [length]. lia.
  - destruct (loop_body_running P rom disasm b s Hrom Hs Hstep Hu)
      as (data & s1 & Hb & ->).
    destruct (bus_transfer_cases P rom b (clock_rise P s) Hrom Hs)
      as (data' & s1' & Hb' & (Hd & Hr & Ht & _ & Htr & Hi & Hu1) & Hram & _).
    rewrite Hb in Hb'. injection Hb' as <- <-.
    set (s2 := clock_fall P (tristate_dbus s1)).
    assert (wf_state s2) as Hs2.
    { unfold wf_state. change (ram s2) with (ram s1). rewrite Hram.
      destruct (pin_high (read_octl b) (OCTL_RWB P)); [exact Hs|].
      apply write_data_wf. exact Hs. }
    assert (debug_step s2 = false) as Hstep2 by (rewrite <- Hstep; exact Hd).
    assert (uart s2 = []) as Hu2 by (rewrite <- Hu; exact Hu1).
    destruct (IH s2 Hs2 Hstep2 Hu2)
      as (s' & Hc & H1 & H2 & H2' & H3 & H4 & H5).
    exists s'. split; [exact Hc|]. split; [exact H1|].
    split; [rewrite H2; exact Hr|]. split; [exact H2'|].
    split; [rewrite H3; exact Ht|]. split; [rewrite H4; exact Hi|].
    rewrite H5. unfold s2, clock_fall. rewrite write_ictl_trace.
    change (ictl_trace (tristate_dbus s1)) with (ictl_trace s1).
    rewrite Htr. unfold clock_rise. rewrite write_ictl_trace.
    rewrite !length_app. cbn [length]. lia.
Qed.

Lemma free_running_witness :
  exists s',
    cycles sample_pins sample_rom sample_disasm
      [mkBus 15 0 0xA0 0; mkBus 0 0x10 0 0x42]
      (set_rx ["b"%char] (set_debug_step false power_on)) = Returned s' /\
    debug_step s' = false /\
    rx s' = rx (set_rx ["b"%char] (set_debug_step false power_on)) /\
    uart s' = [] /\
    tx s' = tx (set_rx ["b"%char] (set_debug_step false power_on)) /\
    irq_enabled s' =
      irq_enabled (set_rx ["b"%char] (set_debug_step false power_on)) /\
    length (ictl_trace s') =
      (length
         (ictl_trace (set_rx ["b"%char] (set_debug_step false power_on)))
       + 2 * length [mkBus 15 0 0xA0 0; mkBus 0 0x10 0 0x42])%nat.
Proof.
  apply (free_running sample_pins sample_rom sample_disasm
           [mkBus 15 0 0xA0 0; mkBus 0 0x10 0 0x42]
           (set_rx ["b"%char] (set_debug_step false power_on))).
  - reflexivity.
  - reflexivity.
  - reflexivity.
  - reflexivity.
Defined.

(** X14: Store, then load, through the bus: while free running, a write cycle
    to an address below 0x1000 stores the byte found on the data bus, and a
    read cycle of the same address that follows drives that byte: after its
    transfer the data port is an output (DDR 0xff) that holds the byte, and
    so it stays until the end of the cycle, which releases the bus (DDR 0).
    RAM holds the byte at that address after either cycle. *)
Theorem store_then_load (P : pins) (rom : list Z)
    (disasm : (Z -> option Z) -> Z -> string)
    (bw br : bus_sample) (s : state) :
  wf_rom rom -> wf_state s -> debug_step s = false -> uart s = [] ->
  pin_high (read_octl bw) (OCTL_RWB P) = false ->
  pin_high (read_octl br) (OCTL_RWB P) = true ->
  read_abus br = read_abus bw -> read_abus bw < 0x1000 ->
  exists s1 s2 s',
    loop_body P rom disasm bw s = Returned s1 /\
    ram s1 !! Z.to_nat (read_abus bw) = Some (dbus_pin bw) /\
    bus_transfer P rom br (clock_rise P s1) = Some (dbus_pin bw, s2) /\
    dbus_ddr s2 = 255 /\ dbus_port s2 = dbus_pin bw /\
    loop_body P rom disasm br s1 = Returned s' /\
    cycles P rom disasm [bw; br] s = Returned s' /\
    s' = clock_fall P (tristate_dbus s2) /\
    dbus_ddr s' = 0 /\
    ram s' !! Z.to_nat (read_abus bw) = Some (dbus_pin bw).
Proof.
  intros Hrom Hs Hstep Hu Hw Hr Haddr Hram.
  pose proof (read_abus_u16 bw) as [Hlo _].
  assert (RAMADDR (read_abus bw) = true) as Hcl
    by (apply RAMADDR_true; exact Hram).
  (* the write cycle *)
  destruct (loop_body_running P rom disasm bw s Hrom Hs Hstep Hu)
    as (d1 & s1 & Hb1 & Hbody1).
  destruct (bus_transfer_cases P rom bw (clock_rise P s) Hrom Hs)
    as (d1' & s1' & Hb1' & (Hd1 & _ & _ & _ & _ & _ & Hu1) & Hram1 & Hbus1).
  rewrite Hb1 in Hb1'. injection Hb1' as <- <-.
  rewrite Hw in Hram1, Hbus1. cbn [andb] in Hbus1.
  destruct Hbus1 as [_ ->].
  set (s2 := clock_fall P (tristate_dbus s1)) in *.
  assert (ram s2 = ram (write_data (read_abus bw) (dbus_pin bw)
                          (clock_rise P s))) as Hram2 by exact Hram1.
  assert (wf_state s2) as Hs2.
  { unfold wf_state. rewrite Hram2. apply write_data_wf. exact Hs. }
  assert (debug_step s2 = false) as Hstep2 by (rewrite <- Hstep; exact Hd1).
  assert (uart s2 = []) as Hu2 by (rewrite <- Hu; exact Hu1).
  (* the read cycle *)
  destruct (loop_body_running P rom disasm br s2 Hrom Hs2 Hstep2 Hu2)
    as (d2 & s3 & Hb2 & Hbody2).
  destruct (bus_transfer_cases P rom br (clock_rise P s2) Hrom Hs2)
    as (d2' & s3' & Hb2' & _ & Hram3 & Hbus3).
  rewrite Hb2 in Hb2'. injection Hb2' as <- <-.
  rewrite Hr in Hram3. rewrite Hr, Haddr, Hcl in Hbus3.
  cbn [andb orb] in Hbus3.
  destruct Hbus3 as (Hddr & Hport & Hread).
  assert (read_data rom (clock_rise P s2) (read_abus bw)
          = Some (dbus_pin bw)) as Hval.
  { rewrite (read_data_ram_ext rom (clock_rise P s2)
               (write_data (read_abus bw) (dbus_pin bw) (clock_rise P s)))
      by exact Hram2.
    apply write_data_same; [exact Hs|lia]. }
  rewrite Hval in Hread. injection Hread as <-.
  assert (ram s2 !! Z.to_nat (read_abus bw) = Some (dbus_pin bw)) as Hcell.
  { unfold read_data in Hval. rewrite Hcl in Hval.
    rewrite land_RAMMASK in Hval by lia. exact Hval. }
  exists s2, s3, (clock_fall P (tristate_dbus s3)).
  split; [exact Hbody1|]. split; [exact Hcell|]. split; [exact Hb2|].
  split; [exact Hddr|]. split; [exact Hport|]. split; [exact Hbody2|].
  split; [cbn [cycles]; rewrite Hbody1, Hbody2; reflexivity|].
  split; [reflexivity|]. split; [reflexivity|].
  change (ram (clock_fall P (tristate_dbus s3))) with (ram s3).
  rewrite Hram3. exact Hcell.
Qed.

Lemma store_then_load_witness :
  exists s1 s2 s',
    loop_body sample_pins sample_rom sample_disasm (mkBus 0 0x10 0 0x42)
      (set_debug_step false power_on) = Returned s1 /\
    ram s1 !! Z.to_nat (read_abus (mkBus 0 0x10 0 0x42))
      = Some (dbus_pin (mkBus 0 0x10 0 0x42)) /\
    bus_transfer sample_pins sample_rom (mkBus 15 0x10 0 0)
      (clock_rise sample_pins s1)
      = Some (dbus_pin (mkBus 0 0x10 0 0x42), s2) /\
    dbus_ddr s2 = 255 /\ dbus_port s2 = dbus_pin (mkBus 0 0x10 0 0x42) /\
    loop_body sample_pins sample_rom sample_disasm (mkBus 15 0x10 0 0) s1
      = Returned s' /\
    cycles sample_pins sample_rom sample_disasm
      [mkBus 0 0x10 0 0x42; mkBus 15 0x10 0 0]
      (set_debug_step false power_on) = Returned s' /\
    s' = clock_fall sample_pins (tristate_dbus s2) /\
    dbus_ddr s' = 0 /\
    ram s' !! Z.to_nat (read_abus (mkBus 0 0x10 0 0x42))
      = Some (dbus_pin (mkBus 0 0x10 0 0x42)).
Proof.
  apply (store_then_load sample_pins sample_rom sample_disasm
           (mkBus 0 0x10 0 0x42) (mkBus 15 0x10 0 0)
           (set_debug_step false power_on)).
  - reflexivity.
  - reflexivity.
  - reflexivity.
  - reflexivity.
  - reflexivity.
  - reflexivity.
  - reflexivity.
  - vm_compute. reflexivity.
Defined.

Lemma hook_start_step (line : string) (s : state) :
  debug_step (hook_start line s) = debug_step s.
Proof. unfold hook_start. destruct (debug_step s) eqn:E; exact E. Qed.

(** The state a stepped cycle ends in, from the state [t] the hook was
    entered in. *)
Lemma stepped_state_fields (P : pins) (rest : list ascii) (line : string)
    (t : state) :
  debug_step t = true ->
  let t' :=
    clock_fall P (tristate_dbus (cli (set_rx rest (hook_start line t))))
  in
  ram t' = ram t /\ debug_step t' = debug_step t /\ rx t' = rest /\
  uart t' = [] /\ tx t' = tx t ++ [line].
Proof.
  intros H. cbv zeta. unfold hook_start. rewrite H.
  repeat split; exact H.
Qed.

(** One stepped cycle: stepping, with [s] the first byte received, the
    cycle returns having taken that byte and printed one line. *)
Lemma loop_body_step (P : pins) (rom : list Z)
    (disasm : (Z -> option Z) -> Z -> string)
    (b : bus_sample) (rest : list ascii) (s : state) :
  wf_rom rom -> wf_state s -> debug_step s = true ->
  rx s ++ uart s = "s"%char :: rest ->
  exists s',
    loop_body P rom disasm b s = Returned s' /\ wf_state s' /\
    debug_step s' = true /\ rx s' = rest /\ uart s' = [] /\
    length (tx s') = S (length (tx s)).
Proof.
  intros Hrom Hs Hstep Hrx.
  destruct (bus_transfer_cases P rom b (clock_rise P s) Hrom Hs)
    as (data & s1 & Hb & (Hd & Hr & Ht & _ & _ & _ & Hu) & Hram & _).
  change (debug_step (clock_rise P s)) with (debug_step s) in Hd.
  change (rx (clock_rise P s)) with (rx s) in Hr.
  change (tx (clock_rise P s)) with (tx s) in Ht.
  change (uart (clock_rise P s)) with (uart s) in Hu.
  destruct (loop_body_cases P rom disasm b s Hrom Hs)
    as (data' & s1' & Hb' & ->).
  rewrite Hb in Hb'. injection Hb' as <- <-.
  unfold debug_available. rewrite Hstep. cbn [orb].
  rewrite debug_unfold, Hr, Hu, Hrx, debug_loop_step.
  - cbn [debug_exit end_cycle].
    eexists. split; [reflexivity|].
    rewrite Hstep in Hd.
    destruct (stepped_state_fields P rest
                (debug_line P rom disasm s1 (read_abus b) data (read_octl b))
                s1 Hd) as (F1 & F2 & F3 & F4 & F5).
    unfold wf_state. rewrite F1, F2, F3, F4, F5, Hd, Ht, length_app.
    cbn [length]. split; [|repeat split; lia].
    rewrite Hram. change (ram (clock_rise P s)) with (ram s).
    destruct (pin_high (read_octl b) (OCTL_RWB P)); [exact Hs|].
    rewrite (write_data_ram_ext _ _ (clock_rise P s) s) by reflexivity.
    apply write_data_wf. exact Hs.
  - rewrite hook_start_step, Hd. exact Hstep.
Qed.

(** X15: Single stepping: with as many [s] bytes received as there are
    cycles, in Serial's queue or still in the USART, every cycle takes one
    of them, prints its line and returns; both buffers are then empty, the
    debugger still stepping, and the cycle after is left polling. *)
Theorem single_steps (P : pins) (rom : list Z)
    (disasm : (Z -> option Z) -> Z -> string)
    (bs : list bus_sample) (b : bus_sample) (s : state) :
  wf_rom rom -> wf_state s -> debug_step s = true ->
  rx s ++ uart s = replicate (length bs) "s"%char ->
  (exists s',
     cycles P rom disasm bs s = Returned s' /\
     debug_step s' = true /\ rx s' = [] /\ uart s' = [] /\
     length (tx s') = (length (tx s) + length bs)%nat) /\
  is_spinning (cycles P rom disasm (bs ++ [b]) s) = true.
Proof.
  intros Hrom. revert s.
  induction bs as [|b0 bs IH]; intros s Hs Hstep Hrx.
  - split.
    + cbn [length replicate] in Hrx. apply app_nil in Hrx.
      destruct Hrx as [Hq Hu].
      exists s. cbn [cycles length]. repeat split; try assumption. lia.
    + cbn [app cycles].
      destruct (loop_body_cases P rom disasm b s Hrom Hs)
        as (data & s1 & Hb & ->).
      destruct (bus_transfer_cases P rom b (clock_rise P s) Hrom Hs)
        as (data' & s1' & Hb' & (Hd & Hr & _ & _ & _ & _ & Hu) & _).
      rewrite Hb in Hb'. injection Hb' as <- <-.
      change (debug_step (clock_rise P s)) with (debug_step s) in Hd.
      change (rx (clock_rise P s)) with (rx s) in Hr.
      change (uart (clock_rise P s)) with (uart s) in Hu.
      unfold debug_available. rewrite Hstep. cbn [orb].
      rewrite debug_unfold, Hr, Hu, Hrx.
      cbn [length replicate debug_loop].
      rewrite hook_start_step, Hd, Hstep. reflexivity.
  - cbn [length replicate] in Hrx.
    destruct (loop_body_step P rom disasm b0 _ s Hrom Hs Hstep Hrx)
      as (s1 & Hbody & Hs1 & Hstep1 & Hrx1 & Hu1 & Htx1).
    assert (rx s1 ++ uart s1 = replicate (length bs) "s"%char) as Hin
      by (rewrite Hrx1, Hu1; apply app_nil_r).
    destruct (IH s1 Hs1 Hstep1 Hin)
      as [(s' & Hc & H1 & H2 & H2' & H3) Hspin].
    split.
    + exists s'. cbn [cycles]. rewrite Hbody.
      split; [exact Hc|]. split; [exact H1|]. split; [exact H2|].
      split; [exact H2'|].
      rewrite H3, Htx1. cbn [length]. lia.
    + cbn [app cycles]. rewrite Hbody. exact Hspin.
Qed.

Lemma single_steps_witness :
  (exists s',
     cycles sample_pins sample_rom sample_disasm
       [mkBus 15 0 0xA0 0; mkBus 15 1 0xA0 0]
       (set_uart ["s"%char] (set_rx ["s"%char] power_on)) = Returned s' /\
     debug_step s' = true /\ rx s' = [] /\ uart s' = [] /\
     length (tx s') =
       (length (tx (set_uart ["s"%char] (set_rx ["s"%char] power_on)))
        + length [mkBus 15 0 0xA0 0; mkBus 15 1 0xA0 0])%nat) /\
  is_spinning
    (cycles sample_pins sample_rom sample_disasm
       ([mkBus 15 0 0xA0 0; mkBus 15 1 0xA0 0] ++ [mkBus 15 2 0xA0 0])
       (set_uart ["s"%char] (set_rx ["s"%char] power_on))) = true.
Proof.
  apply (single_steps sample_pins sample_rom sample_disasm
           [mkBus 15 0 0xA0 0; mkBus 15 1 0xA0 0] (mkBus 15 2 0xA0 0)
           (set_uart ["s"%char] (set_rx ["s"%char] power_on))).
  - reflexivity.
  - reflexivity.
  - reflexivity.
  - reflexivity.
Defined.

(** [reset] entered with PHI2 high, as the hook enters it. *)
Lemma reset_rising_edges_witness :
  exists new,
    ictl_trace (reset sample_pins (clock_rise sample_pins power_on)) =
      ictl_trace (clock_rise sample_pins power_on) ++ new /\
    rising_edges
      (pin_high (ictl_port (clock_rise sample_pins power_on))
         (ICTL_PHI2 sample_pins))
      (map (fun p => pin_high p (ICTL_PHI2 sample_pins)) new) =
    (if pin_high (ictl_port (clock_rise sample_pins power_on))
          (ICTL_PHI2 sample_pins)
     then 8 else 9)%nat.
Proof.
  apply (reset_rising_edges sample_pins).
  unfold wf_ictl, mask8. simpl. repeat split; lia.
Defined.
